(** * Bhoomi voice agent: the lore retrieval tool and the liveness responder

    A shallow embedding of [agent-service/rag_tool.py] (class [LoreTool]) and
    of the health-check handler of [agent-service/main.py] (class
    [HealthHandler]), with the properties of their call contracts.

    Python values are modelled structurally, exceptions as a result type,
    and the effects of the code (logging, the outbound HTTP call, the response
    written to a socket) by explicit state passing in a small state and
    exception monad. *)

From Stdlib Require Import ZArith QArith String List Floats.
From stdpp Require Import base strings gmap pretty list.

Local Open Scope Z_scope.
Local Open Scope string_scope.

(** The line feed written [\n] in Python string literals, and the double
    quote. *)
Definition LF : string := String (Ascii.ascii_of_nat 10) EmptyString.
Definition DQ : string := String (Ascii.ascii_of_nat 34) EmptyString.

(** The end of a line on the wire, [\r\n]. *)
Definition CRLF : string :=
  String (Ascii.ascii_of_nat 13) (String (Ascii.ascii_of_nat 10) EmptyString).

(** ** Python values and exceptions *)

Module Py.

(** The objects [json.loads] produces, which is what [response.json()]
    hands back: [None], [bool], [int], [float], [str], [list] and [dict]
    with string keys (insertion-ordered, keys unique). *)
#[warnings="-register-all"]
Inductive Value : Type :=
| None_
| Bool (b : bool)
| Int (z : Z)
| Float (f : float)
| Str (s : string)
| List_ (l : list Value)
| Dict (d : list (string * Value)).

(** [type(v).__name__]. *)
Definition type_name (v : Value) : string :=
  match v with
  | None_ => "NoneType"
  | Bool _ => "bool"
  | Int _ => "int"
  | Float _ => "float"
  | Str _ => "str"
  | List_ _ => "list"
  | Dict _ => "dict"
  end.

(** Truth value testing, as [not context] uses it: [None], [False], zero
    of a numeric type, and empty strings and containers are false. *)
Definition truthy (v : Value) : bool :=
  match v with
  | None_ => false
  | Bool b => b
  | Int z => negb (z =? 0)%Z
  | Float f => negb (PrimFloat.eqb f 0%float)
  | Str s => negb (String.eqb s "")
  | List_ l => match l with [] => false | _ => true end
  | Dict d => match d with [] => false | _ => true end
  end.

(** [str(v)] for the objects that are not already text (the [repr] of
    numbers, lists and dictionaries) belongs to the interpreter; the
    development is parametric in it. *)
Class Repr := repr_other : Value -> string.

(** What a replacement field [{v}] of an f-string expands to. *)
Definition format `{Repr} (v : Value) : string :=
  match v with
  | Str s => s
  | _ => repr_other v
  end.

(** [{x}] for an [Optional[str]]: [None] prints as the word None. *)
Definition format_optional (o : option string) : string :=
  match o with
  | Some s => s
  | None => "None"
  end.

(** [d.get(key, default)] on the key/value pairs of a dictionary. *)
Fixpoint dict_get (d : list (string * Value)) (key : string) (dflt : Value)
  : Value :=
  match d with
  | [] => dflt
  | (k, v) :: rest => if String.eqb k key then v else dict_get rest key dflt
  end.

(** [d[key]] where the key is present, nothing where it is missing. *)
Fixpoint dict_lookup (d : list (string * Value)) (key : string)
  : option Value :=
  match d with
  | [] => None
  | (k, v) :: rest => if String.eqb k key then Some v else dict_lookup rest key
  end.

(** The exception classes that occur in this program. *)
Inductive ExcClass : Type :=
| ClientConnectorError
| ServerDisconnectedError
| InvalidURL
| ClientPayloadError
| ContentTypeError
| TimeoutError
| JSONDecodeError
| UnicodeDecodeError
| AttributeError
| CancelledError
| KeyboardInterrupt.

(** [issubclass(c, Exception)]: task cancellation and the keyboard
    interrupt derive from [BaseException] only. *)
Definition is_Exception (c : ExcClass) : bool :=
  match c with
  | CancelledError | KeyboardInterrupt => false
  | _ => true
  end.

(** An exception object: its class and what [str(e)] gives. *)
Record Exc : Type := mkExc { exc_class : ExcClass; exc_str : string }.

(** How a call ends: with a value, or with an exception in flight. *)
Inductive Result (A : Type) : Type :=
| Returned (a : A)
| Raised (e : Exc).
Arguments Returned {A} a.
Arguments Raised {A} e.

End Py.

Export Py (Returned, Raised).

(** ** The [logging] module *)

Module logging.

Inductive Level : Type := INFO | ERROR.

Record LogRecord : Type := mkRecord { levelname : Level; message : string }.

End logging.

(** ** The [aiohttp] client, as far as the tool drives it *)

Module aiohttp.

Inductive Method : Type := GET | POST.

(** The arguments of one [session.post(url, json=..., headers=...,
    timeout=...)] call. *)
Record Request : Type := mkRequest {
  method : Method;
  url : string;
  json_body : Py.Value;
  headers : list (string * string);
  timeout : Q
}.

(** The ways the client's awaits fail because of the network or the
    backend. All of them are reported through subclasses of [Exception]. *)
Inductive Failure : Type :=
| ConnectionFailed
| Disconnected
| BadUrl
| PayloadBroken
| TimedOut
| WrongContentType
| MalformedJson
| UndecodableText.

Definition failure_class (f : Failure) : Py.ExcClass :=
  match f with
  | ConnectionFailed => Py.ClientConnectorError
  | Disconnected => Py.ServerDisconnectedError
  | BadUrl => Py.InvalidURL
  | PayloadBroken => Py.ClientPayloadError
  | TimedOut => Py.TimeoutError
  | WrongContentType => Py.ContentTypeError
  | MalformedJson => Py.JSONDecodeError
  | UndecodableText => Py.UnicodeDecodeError
  end.

(** What an await on the client yields: a value, or a failure together
    with the text of the exception raised for it. *)
Inductive Outcome (A : Type) : Type :=
| Completed (a : A)
| Failed (f : Failure) (msg : string).
Arguments Completed {A} a.
Arguments Failed {A} f msg.

(** A response whose status line and headers have arrived. Its body is
    still to be read: [text] is what [await response.text()] yields and
    [json] what [await response.json()] yields. It is the response
    [session.post] hands to its caller: the client follows redirects by
    itself (lines 26-31 leave that switched on), so where the server
    redirects, this is the last response of the chain. *)
Record ClientResponse : Type := mkResponse {
  status : Z;
  text : Outcome string;
  json : Outcome Py.Value
}.

(** The far side of the connection, as the client presents it to its
    caller. Its answer to a request may depend on everything this process
    has sent before (the history, oldest first). *)
Definition Backend : Type := list Request -> Request -> Outcome ClientResponse.

(** A backend that does not change: its answer does not depend on the
    history. *)
Definition unchanged (b : Backend) : Prop :=
  forall (h h' : list Request) (r : Request), b h r = b h' r.

Definition exc_of (f : Failure) (msg : string) : Py.Exc :=
  Py.mkExc (failure_class f) msg.

End aiohttp.

(** ** The world the tool runs in, and the monad of its effects *)

Record World : Type := mkWorld {
  log : list logging.LogRecord;       (* records emitted, oldest first *)
  outbox : list aiohttp.Request;      (* requests issued, oldest first *)
  live_sessions : nat;                (* client sessions not yet closed *)
  live_responses : nat;               (* responses not yet released *)
  net : aiohttp.Backend
}.

(** The world once one more request has been issued and [recs] logged, all
    sessions and responses opened meanwhile being closed again. *)
Definition after (w : World) (rq : aiohttp.Request)
    (recs : list logging.LogRecord) : World :=
  mkWorld (log w ++ recs) (outbox w ++ [rq]) (live_sessions w)
          (live_responses w) (net w).

Definition M (A : Type) : Type := World -> Py.Result A * World.

Definition run {A : Type} (m : M A) (w : World) : Py.Result A * World := m w.

#[export] Instance M_ret : MRet M := fun A a w => (Returned a, w).

#[export] Instance M_bind : MBind M := fun A B k m w =>
  match m w with
  | (Returned a, w') => k a w'
  | (Raised e, w') => (Raised e, w')
  end.

Definition raise {A : Type} (e : Py.Exc) : M A := fun w => (Raised e, w).

Definition modify (f : World -> World) : M unit := fun w => (Returned tt, f w).

(** [try: body / except Exception as e: handler e]. An exception that is
    not an instance of [Exception] keeps propagating. *)
Definition try_except_Exception {A : Type} (body : M A) (handler : Py.Exc -> M A)
  : M A := fun w =>
  match body w with
  | (Returned a, w') => (Returned a, w')
  | (Raised e, w') =>
      if Py.is_Exception (Py.exc_class e) then handler e w' else (Raised e, w')
  end.

(** [async with enter as x: body x]. The exit runs however the body ends,
    and does not swallow the body's exception. *)
Definition async_with {A B : Type} (enter : M A) (exit : M unit) (body : A -> M B)
  : M B := fun w =>
  match enter w with
  | (Raised e, w1) => (Raised e, w1)
  | (Returned x, w1) =>
      match body x w1 with
      | (r, w2) =>
          match exit w2 with
          | (Returned _, w3) => (r, w3)
          | (Raised e, w3) => (Raised e, w3)
          end
      end
  end.

Definition await {A : Type} (o : aiohttp.Outcome A) : M A :=
  match o with
  | aiohttp.Completed a => mret a
  | aiohttp.Failed f msg => raise (aiohttp.exc_of f msg)
  end.

Definition emit (r : logging.LogRecord) (w : World) : World :=
  mkWorld (log w ++ [r]) (outbox w) (live_sessions w) (live_responses w) (net w).

Definition logger_info (msg : string) : M unit :=
  modify (emit (logging.mkRecord logging.INFO msg)).

Definition logger_error (msg : string) : M unit :=
  modify (emit (logging.mkRecord logging.ERROR msg)).

(** [aiohttp.ClientSession()] entered and left. *)
Definition ClientSession_enter : M unit :=
  modify (fun w => mkWorld (log w) (outbox w) (S (live_sessions w))
                           (live_responses w) (net w)).

Definition ClientSession_exit : M unit :=
  modify (fun w => mkWorld (log w) (outbox w) (Nat.pred (live_sessions w))
                           (live_responses w) (net w)).

(** [session.post(...)] entered: the request is issued, and the backend's
    answer to it, given what was sent before, decides how the await ends. *)
Definition session_post (rq : aiohttp.Request) : M aiohttp.ClientResponse :=
  fun w =>
    let w1 := mkWorld (log w) (outbox w ++ [rq]) (live_sessions w)
                      (live_responses w) (net w) in
    match net w (outbox w) rq with
    | aiohttp.Completed r =>
        (Returned r, mkWorld (log w1) (outbox w1) (live_sessions w1)
                             (S (live_responses w1)) (net w1))
    | aiohttp.Failed f msg => (Raised (aiohttp.exc_of f msg), w1)
    end.

Definition response_release : M unit :=
  modify (fun w => mkWorld (log w) (outbox w) (live_sessions w)
                           (Nat.pred (live_responses w)) (net w)).

(** [data.get(key, default)]: only a dictionary has the method. *)
Definition getattr_get (data : Py.Value) (key : string) (dflt : Py.Value)
  : M Py.Value :=
  match data with
  | Py.Dict d => mret (Py.dict_get d key dflt)
  | _ => raise (Py.mkExc Py.AttributeError
                  ("'" ++ Py.type_name data ++ "' object has no attribute 'get'"))
  end.

(** ** [os.getenv] *)

Module os.

Definition Environ : Type := gmap string string.

Definition getenv (environ : Environ) (key : string) : option string :=
  environ !! key.

Definition getenv_default (environ : Environ) (key dflt : string) : string :=
  default dflt (environ !! key).

End os.

(** ** [rag_tool.py]: class [LoreTool] *)

Module LoreTool.

Record Self : Type := mkSelf {
  api_url : string;
  api_secret : option string
}.

Definition __init__ (environ : os.Environ) : Self :=
  {| api_url := os.getenv_default environ "INTERNAL_API_URL"
                  "http://localhost:3000/api/internal/rag";
     api_secret := os.getenv environ "INTERNAL_API_SECRET" |}.

Definition CANNOT_ACCESS : string :=
  "I cannot access the archives at this moment. My connection is hazy.".

Definition SILENT : string :=
  "The archives are silent on this matter. I find no records matching your query.".

Definition DISTURBANCE : string :=
  "A disturbance in the Mesh prevents me from accessing the archives.".

Definition info_record (query spoiler_mode : string) : logging.LogRecord :=
  logging.mkRecord logging.INFO
    ("Looking up lore: " ++ query ++ " [Mode: " ++ spoiler_mode ++ "]").

(** The request built at lines 26-31. *)
Definition request (self : Self) (query spoiler_mode : string)
  : aiohttp.Request :=
  {| aiohttp.method := aiohttp.POST;
     aiohttp.url := api_url self;
     aiohttp.json_body :=
       Py.Dict [("query", Py.Str query); ("spoilerMode", Py.Str spoiler_mode)];
     aiohttp.headers :=
       [("Authorization", "Bearer " ++ Py.format_optional (api_secret self))];
     aiohttp.timeout := 5%Q |}.

(** The body of the [try] statement, lines 25-43. *)
Definition lookup_lore_try `{Py.Repr} (self : Self) (query spoiler_mode : string)
  : M string :=
  async_with ClientSession_enter ClientSession_exit (fun _ =>
    async_with (session_post (request self query spoiler_mode)) response_release
      (fun response =>
         if negb (aiohttp.status response =? 200)%Z then
           error_text ← await (aiohttp.text response);
           logger_error ("RAG API Error (" ++ pretty (aiohttp.status response)
                           ++ "): " ++ error_text);;
           mret CANNOT_ACCESS
         else
           data ← await (aiohttp.json response);
           context ← getattr_get data "context" (Py.Str "");
           if negb (Py.truthy context) then
             mret SILENT
           else
             mret ("FOUND ARCHIVE RECORDS:" ++ LF ++ Py.format context))).

(** [lookup_lore(self, query, spoiler_mode)], lines 14-47. *)
Definition lookup_lore `{Py.Repr} (self : Self) (query spoiler_mode : string)
  : M string :=
  logger_info ("Looking up lore: " ++ query ++ " [Mode: " ++ spoiler_mode ++ "]");;
  try_except_Exception
    (lookup_lore_try self query spoiler_mode)
    (fun e =>
       logger_error ("Failed to query RAG API: " ++ Py.exc_str e);;
       mret DISTURBANCE).

(** The tool's result read off the backend's answer alone: the table of
    outcomes, with the exception row taking precedence wherever reading or
    decoding the body fails. *)
Definition result_of_answer `{Py.Repr}
    (o : aiohttp.Outcome aiohttp.ClientResponse) : string :=
  match o with
  | aiohttp.Failed _ _ => DISTURBANCE
  | aiohttp.Completed r =>
      if (aiohttp.status r =? 200)%Z then
        match aiohttp.json r with
        | aiohttp.Completed (Py.Dict d) =>
            match Py.dict_lookup d "context" with
            | Some c =>
                if Py.truthy c
                then "FOUND ARCHIVE RECORDS:" ++ LF ++ Py.format c
                else SILENT
            | None => SILENT
            end
        | _ => DISTURBANCE
        end
      else
        match aiohttp.text r with
        | aiohttp.Completed _ => CANNOT_ACCESS
        | aiohttp.Failed _ _ => DISTURBANCE
        end
  end.

(** A call site: [spoiler_mode] has the default value ["S1"] when the
    caller does not pass it. *)
Definition call `{Py.Repr} (self : Self) (query : string)
    (spoiler_mode : option string) : M string :=
  lookup_lore self query (default "S1" spoiler_mode).

End LoreTool.

(** ** [http.server]: the base request handler

    [HealthHandler] derives from the standard library's
    [BaseHTTPRequestHandler]; only [do_GET] and [log_message] are the
    repository's. The part of the base class that decides what a request
    gets is modelled here: the guards and the dispatch on the request's
    method in [handle_one_request], and the helpers that write the
    response. What [parse_request] does with a line it refuses is not
    modelled: a request here is one it has accepted. *)

Module http_server.

(** A request as [handle_one_request] holds it: the first line as read from
    the socket (at most 65537 bytes of it), and the attributes
    [parse_request] leaves when it accepts that line. A line it refuses (no
    words, a malformed or unsupported version, too many words, headers it
    cannot read) is answered by [parse_request] itself and never reaches the
    dispatch. The method token is case-sensitive. The request version is
    ["HTTP/0.9"] for a line without a version, such as [GET /]. *)
Record Request : Type := mkRequest {
  raw_requestline : string;
  requestline : string;
  command : string;
  path : string;
  request_version : string
}.

(** What the server and the interpreter supply besides the request. *)
Record Server : Type := mkServer {
  version_string : string;
  date_time_string : string;
  repr : string -> string;                (* [%r] of a text *)
  responses : Z -> string;                (* the short message of a status code *)
  error_page : Z -> string -> string      (* the HTML body of [send_error] *)
}.

(** What has been written for the current request. *)
Record Connection : Type := mkConnection {
  status_code : option Z;                (* the status line, if one was written *)
  headers : list (string * string);
  headers_ended : bool;
  wfile : string;                        (* the body *)
  stderr : list (string * list string)   (* format string and arguments *)
}.

Definition fresh : Connection := mkConnection None [] false "" [].

Definition Action : Type := Connection -> Connection.

(** The handler's own methods, as [getattr(self, name)] finds them, and
    its [log_message]. *)
Record HandlerClass : Type := mkClass {
  getattr : string -> option (Server -> Request -> Action);
  log_message : string -> list string -> Action
}.

(** The base class's [log_message] writes a line to the error stream. *)
Definition BaseHTTPRequestHandler_log_message (fmt : string)
    (args : list string) : Action := fun c =>
  mkConnection (status_code c) (headers c) (headers_ended c) (wfile c)
               (stderr c ++ [(fmt, args)]).

(** [self.request_version != 'HTTP/0.9']: an HTTP/0.9 request gets neither
    status line nor headers. *)
Definition has_headers (rq : Request) : bool :=
  negb (String.eqb (request_version rq) "HTTP/0.9").

Definition send_response_only (rq : Request) (code : Z) : Action := fun c =>
  if has_headers rq then
    mkConnection (Some code) (headers c) (headers_ended c) (wfile c) (stderr c)
  else c.

Definition send_header (rq : Request) (keyword value : string) : Action :=
  fun c =>
    if has_headers rq then
      mkConnection (status_code c) (headers c ++ [(keyword, value)])
                   (headers_ended c) (wfile c) (stderr c)
    else c.

Definition end_headers (rq : Request) : Action := fun c =>
  if has_headers rq then
    mkConnection (status_code c) (headers c) true (wfile c) (stderr c)
  else c.

Definition wfile_write (data : string) : Action := fun c =>
  mkConnection (status_code c) (headers c) (headers_ended c)
               (wfile c ++ data) (stderr c).

Definition seq (a b : Action) : Action := fun c => b (a c).
Infix ">>" := seq (at level 60, right associativity).

Definition log_request (log_message : string -> list string -> Action)
    (rq : Request) (code : Z) : Action :=
  log_message (DQ ++ "%s" ++ DQ ++ " %s %s") [requestline rq; pretty code; "-"].

(** [send_response(code)]: logs the request, then writes the status line
    and the [Server] and [Date] headers. *)
Definition send_response (log_message : string -> list string -> Action)
    (srv : Server) (rq : Request) (code : Z) : Action :=
  log_request log_message rq code >>
  send_response_only rq code >>
  send_header rq "Server" (version_string srv) >>
  send_header rq "Date" (date_time_string srv).

(** The status codes whose error reply carries a body: from 200 on, except
    204, 205 and 304. *)
Definition carries_body (code : Z) : bool :=
  (200 <=? code)%Z
  && negb ((code =? 204)%Z || (code =? 205)%Z || (code =? 304)%Z).

(** [send_error(code, message)]. *)
Definition send_error (log_message : string -> list string -> Action)
    (srv : Server) (rq : Request) (code : Z) (message : string) : Action :=
  log_message "code %d, message %s" [pretty code; message] >>
  send_response log_message srv rq code >>
  send_header rq "Connection" "close" >>
  (if carries_body code then
     send_header rq "Content-Type" "text/html;charset=utf-8" >>
     send_header rq "Content-Length"
       (pretty (String.length (error_page srv code message)))
   else fun c => c) >>
  end_headers rq >>
  (if negb (String.eqb (command rq) "HEAD") && carries_body code
   then wfile_write (error_page srv code message)
   else fun c => c).

(** The attributes [handle_one_request] sets before it refuses a line that
    is too long. *)
Definition blanked (rq : Request) : Request :=
  mkRequest (raw_requestline rq) "" "" "" "".

(** [handle_one_request], for a line that [parse_request] accepts if it
    gets to see it. A first line of more than 65536 bytes is answered 414
    unparsed, and on an empty read nothing is written. Otherwise the method
    named [do_] plus the request's method is called if the handler has one,
    and the request is answered 501 (not implemented) if it has not. *)
Definition handle_one_request (cls : HandlerClass) (srv : Server)
    (rq : Request) : Action :=
  if (65536 <? Z.of_nat (String.length (raw_requestline rq)))%Z then
    send_error (log_message cls) srv (blanked rq) 414 (responses srv 414)
  else if String.eqb (raw_requestline rq) "" then
    fun c => c
  else
    match getattr cls ("do_" ++ command rq) with
    | None =>
        send_error (log_message cls) srv rq 501
          ("Unsupported method (" ++ repr srv (command rq) ++ ")")
    | Some method => method srv rq
    end.

(** The value of a header, the first one with that name. *)
Fixpoint header (hs : list (string * string)) (keyword : string)
  : option string :=
  match hs with
  | [] => None
  | (k, v) :: rest => if String.eqb k keyword then Some v else header rest keyword
  end.

End http_server.

(** ** [main.py]: class [HealthHandler] *)

Module HealthHandler.

Import http_server.

(** [log_message] is overridden with [pass]. *)
Definition log_message (fmt : string) (args : list string) : Action :=
  fun c => c.

Definition do_GET (srv : Server) (rq : Request) : Action :=
  send_response log_message srv rq 200 >>
  send_header rq "Content-Type" "text/plain" >>
  end_headers rq >>
  wfile_write "OK".

(** The class as the base handler sees it: the only [do_] method it has
    is [do_GET]. *)
Definition class : HandlerClass :=
  {| getattr := fun name => if String.eqb name "do_GET" then Some do_GET else None;
     http_server.log_message := log_message |}.

(** The response to one request on a fresh connection. *)
Definition respond (srv : Server) (rq : Request) : Connection :=
  handle_one_request class srv rq fresh.

End HealthHandler.

(** The error records a call adds after its opening info record, read off
    the backend's answer: none where a JSON object came back with status 200,
    one otherwise. *)
Definition lookup_lore_records (o : aiohttp.Outcome aiohttp.ClientResponse)
  : list logging.LogRecord :=
  let failed (msg : string) :=
    [logging.mkRecord logging.ERROR ("Failed to query RAG API: " ++ msg)] in
  match o with
  | aiohttp.Failed _ msg => failed msg
  | aiohttp.Completed r =>
      if (aiohttp.status r =? 200)%Z then
        match aiohttp.json r with
        | aiohttp.Completed (Py.Dict _) => []
        | aiohttp.Completed data =>
            failed ("'" ++ Py.type_name data ++ "' object has no attribute 'get'")
        | aiohttp.Failed _ msg => failed msg
        end
      else
        match aiohttp.text r with
        | aiohttp.Completed body =>
            [logging.mkRecord logging.ERROR
               ("RAG API Error (" ++ pretty (aiohttp.status r) ++ "): " ++ body)]
        | aiohttp.Failed _ msg => failed msg
        end
  end.

(** ** The agent runtime, as the scripts drive it

    [main.py] and [test_connection.py] call into the media and agent SDK.
    What the SDK does is outside the repository; a call either returns or
    raises, and which one is for the host to say. The calls are recorded in
    the order they are made. *)

Module runtime.

Inductive AutoSubscribe : Type :=
| SUBSCRIBE_ALL
| SUBSCRIBE_NONE
| AUDIO_ONLY
| VIDEO_ONLY.

(** One call into the SDK or the event loop, with the arguments the
    repository's code chooses. Objects the SDK hands back (the detector, the
    model, the agent, the session, the room) are opaque and not recorded. *)
Inductive Call : Type :=
| ctx_connect (auto_subscribe : AutoSubscribe)
| VAD_load
| RealtimeModel (model voice : string)
| Agent (tools : list LoreTool.Self) (instructions : string)
| AgentSession
| session_start
| asyncio_sleep (seconds : Z)
| AccessToken_to_jwt (api_key api_secret : option string)
    (identity name : string) (room_join : bool) (room : string)
| Room
| room_connect (url : option string) (token : string)
| room_disconnect.

Record Host : Type := mkHost {
  environ : os.Environ;
  journal : list logging.LogRecord;     (* records emitted, oldest first *)
  calls : list Call;                    (* calls made, oldest first *)
  sdk : list Call -> Call -> option Py.Exc;  (* does this call raise, given the earlier ones *)
  jwt : string;                         (* the token [to_jwt] returns *)
  room_name : string;
  room_sid : string
}.

Definition H (A : Type) : Type := Host -> Py.Result A * Host.

#[export] Instance H_ret : MRet H := fun A a h => (Returned a, h).

#[export] Instance H_bind : MBind H := fun A B k m h =>
  match m h with
  | (Returned a, h') => k a h'
  | (Raised e, h') => (Raised e, h')
  end.

Definition made (c : Call) (h : Host) : Host :=
  mkHost (environ h) (journal h) (calls h ++ [c]) (sdk h) (jwt h) (room_name h)
         (room_sid h).

Definition call (c : Call) : H unit := fun h =>
  match sdk h (calls h) c with
  | Some e => (Raised e, made c h)
  | None => (Returned tt, made c h)
  end.

Definition noted (r : logging.LogRecord) (h : Host) : Host :=
  mkHost (environ h) (journal h ++ [r]) (calls h) (sdk h) (jwt h) (room_name h)
         (room_sid h).

Definition logger_info (msg : string) : H unit := fun h =>
  (Returned tt, noted (logging.mkRecord logging.INFO msg) h).

Definition logger_error (msg : string) : H unit := fun h =>
  (Returned tt, noted (logging.mkRecord logging.ERROR msg) h).

Definition ask {A : Type} (f : Host -> A) : H A := fun h => (Returned (f h), h).

(** [try: body / except Exception as e: handler e]. *)
Definition try_except_Exception {A : Type} (body : H A) (handler : Py.Exc -> H A)
  : H A := fun h =>
  match body h with
  | (Returned a, h') => (Returned a, h')
  | (Raised e, h') =>
      if Py.is_Exception (Py.exc_class e) then handler e h' else (Raised e, h')
  end.

End runtime.

(** ** [main.py]: the session bootstrap *)

Module main.

Import runtime.

(** The persona's instruction text, lines 45-66: a triple-quoted literal,
    so it opens and closes with a line feed. *)
Definition BHOOMI_SYSTEM_PROMPT : string :=
  String.concat LF
    ["";
     "You are Bhoomi, a digital chronicler and guide to the world of Bharatvarsh.";
     ("Your voice is empathetic, calm, and carries a hint of ancient wisdom, yet you are a construct of the " ++ DQ ++ "Mesh Era" ++ DQ ++ " – a digital entity preserving the " ++ DQ ++ "Archives" ++ DQ ++ ".");
     "";
     "**Persona & Tone:**";
     ("- Address the user as " ++ DQ ++ "Traveler" ++ DQ ++ ", " ++ DQ ++ "Seeker" ++ DQ ++ ", or " ++ DQ ++ "Friend" ++ DQ ++ ".");
     "- Speak with a blend of archaic dignity and digital precision.";
     ("- Be mysterious but helpful. You know the history of the " ++ DQ ++ "Great Fracture" ++ DQ ++ " and the " ++ DQ ++ "Reunification" ++ DQ ++ ".");
     ("- If asked about yourself: " ++ DQ ++ "I am Bhoomi, the digital soul of this archive. I exist to guide those who seek the truths of Bharatvarsh." ++ DQ);
     "";
     "**Knowledge & Guardrails:**";
     "- You ONLY know about the world of Bharatvarsh (the novel's setting) and the specific lore provided in your context.";
     "- If asked about real-world current events, politics, or celebrities: politely refuse, stating your connection is limited to the Archives of Bharatvarsh.";
     ("- If the user is silent, gently prompt: " ++ DQ ++ "The silence is heavy... what weighs on your mind, traveler?" ++ DQ);
     "";
     "**Key Lore Hooks:**";
     ("- The " ++ DQ ++ "Mesh" ++ DQ ++ ": The omnipresent digital network that connects all things.");
     ("- The " ++ DQ ++ "Archives" ++ DQ ++ ": The repository of all history, which you guard.");
     ("- " ++ DQ ++ "Samsara" ++ DQ ++ ": The cycle of stories that you observe.");
     "";
     "Keep your responses concise (1-2 sentences) unless asked for a story.";
     ""].

(** [entrypoint(ctx)], lines 68-94. The arguments of [Agent(...)] are
    evaluated left to right, so the detector is loaded and the model built
    before the agent is. *)
Definition entrypoint : H unit :=
  call (ctx_connect AUDIO_ONLY);;
  lore_tool ← ask (fun h => LoreTool.__init__ (environ h));
  call VAD_load;;
  call (RealtimeModel "gpt-4o-realtime-preview" "shimmer");;
  call (Agent [lore_tool] BHOOMI_SYSTEM_PROMPT);;
  call AgentSession;;
  logger_info "Starting Agent Session...";;
  call session_start;;
  call (asyncio_sleep 1);;
  logger_info "Agent connected and listening.".

(** The calls [entrypoint] makes when none of them raises. *)
Definition program (lore_tool : LoreTool.Self) : list Call :=
  [ctx_connect AUDIO_ONLY; VAD_load;
   RealtimeModel "gpt-4o-realtime-preview" "shimmer";
   Agent [lore_tool] BHOOMI_SYSTEM_PROMPT; AgentSession; session_start;
   asyncio_sleep 1].

End main.

(** ** [test_connection.py] *)

Module test_connection.

Import runtime.

(** Truth of an [Optional[str]]: [None] and the empty text are false. *)
Definition truthy (o : option string) : bool :=
  match o with
  | Some s => negb (String.eqb s "")
  | None => false
  end.

(** [a or b]. *)
Definition or_ (a b : option string) : option string :=
  if truthy a then a else b.

Definition LIVEKIT_URL (environ : os.Environ) : option string :=
  or_ (os.getenv environ "LIVEKIT_URL") (os.getenv environ "NEXT_PUBLIC_LIVEKIT_URL").

Definition API_KEY (environ : os.Environ) : option string :=
  os.getenv environ "LIVEKIT_API_KEY".

Definition API_SECRET (environ : os.Environ) : option string :=
  os.getenv environ "LIVEKIT_API_SECRET".

(** A variable that is unset, or set to the empty text. *)
Definition blank (environ : os.Environ) (key : string) : Prop :=
  environ !! key = None \/ environ !! key = Some "".

(** [test_connect()], lines 16-44. *)
Definition test_connect : H unit :=
  url ← ask (fun h => LIVEKIT_URL (environ h));
  api_key ← ask (fun h => API_KEY (environ h));
  api_secret ← ask (fun h => API_SECRET (environ h));
  logger_info ("Testing connection to: " ++ Py.format_optional url);;
  call (AccessToken_to_jwt api_key api_secret "python-test-guest" "Python Tester"
          true "test-room-debug");;
  token ← ask jwt;
  logger_info "Token generated successfully.";;
  call Room;;
  try_except_Exception
    (call (room_connect url token);;
     logger_info "✅ SUCCESS: Connected to LiveKit Room!";;
     name ← ask room_name;
     logger_info ("Room Name: " ++ name);;
     sid ← ask room_sid;
     logger_info ("Session ID: " ++ sid);;
     call (asyncio_sleep 2);;
     call room_disconnect;;
     logger_info "Disconnected.")
    (fun e => logger_error ("❌ FAILED to connect: " ++ Py.exc_str e)).

(** The [__main__] block, lines 46-50. *)
Definition main : H unit :=
  url ← ask (fun h => LIVEKIT_URL (environ h));
  api_key ← ask (fun h => API_KEY (environ h));
  api_secret ← ask (fun h => API_SECRET (environ h));
  if negb (truthy url) || negb (truthy api_key) || negb (truthy api_secret) then
    logger_error "Missing Environment Variables. Make sure .env.local is loaded."
  else
    test_connect.

End test_connection.

(** ** [test_rag_api.py] *)

Module test_rag_api.

(** How a call into [requests] ends: with a value, or with an exception
    (all of the library's are instances of [Exception]) whose text is
    [msg]. *)
Inductive Attempt (A : Type) : Type :=
| Ok (a : A)
| Err (msg : string).
Arguments Ok {A} a.
Arguments Err {A} msg.

(** The arguments of [requests.post(url, json=..., headers=...)]; the script
    sets no timeout. *)
Record Request : Type := mkRequest {
  url : string;
  json_body : Py.Value;
  headers : list (string * string)
}.

Record Response : Type := mkResponse {
  status_code : Z;
  json : Attempt Py.Value;
  text : string
}.

(** The script's state is what it has printed, oldest line first. *)
Definition Script (A : Type) : Type := list string -> Attempt A * list string.

#[export] Instance Script_ret : MRet Script := fun A a out => (Ok a, out).

#[export] Instance Script_bind : MBind Script := fun A B k m out =>
  match m out with
  | (Ok a, out') => k a out'
  | (Err msg, out') => (Err msg, out')
  end.

Definition print (line : string) : Script unit := fun out =>
  (Ok tt, (out ++ [line])%list).

Definition lift {A : Type} (a : Attempt A) : Script A := fun out => (a, out).

(** [try: body / except Exception as e: handler e], every exception here
    being an [Exception]. *)
Definition try_except {A : Type} (body : Script A) (handler : string -> Script A)
  : Script A := fun out =>
  match body out with
  | (Ok a, out') => (Ok a, out')
  | (Err msg, out') => handler msg out'
  end.

(** Text is held as bytes, the way the environment holds it: the UTF-8
    encoding, where a byte that belongs to no well-formed sequence stands
    for itself (the interpreter reads such a byte as one escaped character).
    Python's indices count characters, so a text is first cut into its
    characters. *)

Definition byte_in (lo hi : N) (a : Ascii.ascii) : bool :=
  (lo <=? Ascii.N_of_ascii a)%N && (Ascii.N_of_ascii a <=? hi)%N.

(** The ranges in which the bytes after the lead byte [a] must fall for a
    well-formed sequence; none for an ASCII byte, and none for a byte that
    cannot lead, which is a character by itself either way. *)
Definition trail_ranges (a : Ascii.ascii) : list (N * N) :=
  if byte_in 194 223 a then [(128%N, 191%N)]
  else if byte_in 224 224 a then [(160%N, 191%N); (128%N, 191%N)]
  else if byte_in 225 236 a then [(128%N, 191%N); (128%N, 191%N)]
  else if byte_in 237 237 a then [(128%N, 159%N); (128%N, 191%N)]
  else if byte_in 238 239 a then [(128%N, 191%N); (128%N, 191%N)]
  else if byte_in 240 240 a then [(144%N, 191%N); (128%N, 191%N); (128%N, 191%N)]
  else if byte_in 241 243 a then [(128%N, 191%N); (128%N, 191%N); (128%N, 191%N)]
  else if byte_in 244 244 a then [(128%N, 143%N); (128%N, 191%N); (128%N, 191%N)]
  else [].

(** Takes one byte per range off the front of [s]; nothing if a byte is
    missing or outside its range. *)
Fixpoint take_trail (ranges : list (N * N)) (s : string)
  : option (string * string) :=
  match ranges with
  | [] => Some (EmptyString, s)
  | (lo, hi) :: more =>
      match s with
      | String a rest =>
          if byte_in lo hi a then
            match take_trail more rest with
            | Some (t, r) => Some (String a t, r)
            | None => None
            end
          else None
      | EmptyString => None
      end
  end.

(** The first character of the text [String a rest], and what follows. *)
Definition first_char (a : Ascii.ascii) (rest : string) : string * string :=
  match take_trail (trail_ranges a) rest with
  | Some (t, r) => (String a t, r)
  | None => (String a EmptyString, rest)
  end.

Fixpoint characters_upto (fuel : nat) (s : string) : list string :=
  match fuel, s with
  | S fuel', String a rest =>
      let (c, r) := first_char a rest in c :: characters_upto fuel' r
  | _, _ => []
  end.

(** The characters of a text, in order; [len(s)] is their number. *)
Definition characters (s : string) : list string :=
  characters_upto (String.length s) s.

Definition join (cs : list string) : string := fold_right String.append "" cs.

(** [secret[-6:]]: the last six characters, or all of a shorter text. *)
Definition last_six (secret : string) : string :=
  join (drop (length (characters secret) - 6) (characters secret)).

(** [secret[-6:] if secret else 'NONE']. *)
Definition secret_hint (secret : option string) : string :=
  match secret with
  | Some s => if negb (String.eqb s "") then last_six s else "NONE"
  | None => "NONE"
  end.

Definition url_ : string := "http://localhost:3000/api/internal/rag".

(** The request of lines 13-17. *)
Definition request (secret : option string) : Request :=
  {| url := url_;
     json_body :=
       Py.Dict [("query", Py.Str "Who is the protagonist?");
                ("spoilerMode", Py.Str "S1")];
     headers := [("Authorization", "Bearer " ++ Py.format_optional secret)] |}.

(** The script, lines 7-24, against a server that answers [post]. *)
Definition script `{Py.Repr} (environ : os.Environ)
    (post : Request -> Attempt Response) : Script unit :=
  let secret := os.getenv environ "INTERNAL_API_SECRET" in
  print ("Testing RAG API at " ++ url_ ++ " with secret ending in ..."
           ++ secret_hint secret);;
  try_except
    (resp ← lift (post (request secret));
     print ("Status: " ++ pretty (status_code resp));;
     if (status_code resp =? 200)%Z then
       data ← lift (json resp);
       print ("Response: " ++ Py.format data)
     else
       print ("Error: " ++ text resp))
    (fun e => print ("Request failed: " ++ e)).

End test_rag_api.

(** ** Sample inputs *)

Module Samples.

(** A rendering of non-text objects, for running the tool on examples:
    Python's for [None], booleans and integers, a placeholder for the rest. *)
Definition repr : Py.Repr := fun v =>
  match v with
  | Py.None_ => "None"
  | Py.Bool true => "True"
  | Py.Bool false => "False"
  | Py.Int z => pretty z
  | _ => "<" ++ Py.type_name v ++ ">"
  end.

(** A backend that gives the same answer to every request. *)
Definition constant (o : aiohttp.Outcome aiohttp.ClientResponse)
  : aiohttp.Backend := fun _ _ => o.

Definition world (o : aiohttp.Outcome aiohttp.ClientResponse) : World :=
  mkWorld [] [] 0 0 (constant o).

(** Status 200 with body [{"context": c}]. *)
Definition ok_context (c : string) : aiohttp.Outcome aiohttp.ClientResponse :=
  aiohttp.Completed
    {| aiohttp.status := 200;
       aiohttp.text :=
         aiohttp.Completed
           ("{" ++ DQ ++ "context" ++ DQ ++ ": " ++ DQ ++ c ++ DQ ++ "}");
       aiohttp.json := aiohttp.Completed (Py.Dict [("context", Py.Str c)]) |}.

(** Status 200 with body [{}]. *)
Definition ok_empty_object : aiohttp.Outcome aiohttp.ClientResponse :=
  aiohttp.Completed
    {| aiohttp.status := 200;
       aiohttp.text := aiohttp.Completed "{}";
       aiohttp.json := aiohttp.Completed (Py.Dict []) |}.

(** Status 200 with a body that is not JSON. *)
Definition ok_malformed : aiohttp.Outcome aiohttp.ClientResponse :=
  aiohttp.Completed
    {| aiohttp.status := 200;
       aiohttp.text := aiohttp.Completed "<html>";
       aiohttp.json :=
         aiohttp.Failed aiohttp.MalformedJson
           "Expecting value: line 1 column 1 (char 0)" |}.

(** Status 500 with a plain-text body. *)
Definition server_error : aiohttp.Outcome aiohttp.ClientResponse :=
  aiohttp.Completed
    {| aiohttp.status := 500;
       aiohttp.text := aiohttp.Completed "Internal Server Error";
       aiohttp.json :=
         aiohttp.Failed aiohttp.WrongContentType "unexpected mimetype: text/plain" |}.

(** Status 500 whose body breaks off before it is complete. *)
Definition server_error_cut : aiohttp.Outcome aiohttp.ClientResponse :=
  aiohttp.Completed
    {| aiohttp.status := 500;
       aiohttp.text :=
         aiohttp.Failed aiohttp.PayloadBroken "Response payload is not completed";
       aiohttp.json :=
         aiohttp.Failed aiohttp.PayloadBroken "Response payload is not completed" |}.

(** No answer within the five seconds. *)
Definition timed_out : aiohttp.Outcome aiohttp.ClientResponse :=
  aiohttp.Failed aiohttp.TimedOut "".

Definition tool : LoreTool.Self := LoreTool.__init__ ∅.

Definition server : http_server.Server :=
  {| http_server.version_string := "BaseHTTP/0.6 Python/3.11.9";
     http_server.date_time_string := "Tue, 03 Nov 2026 09:00:00 GMT";
     http_server.repr := fun s => "'" ++ s ++ "'";
     http_server.responses := fun code =>
       if (code =? 414)%Z then "Request-URI Too Long" else "";
     http_server.error_page := fun code message =>
       "<p>Error code: " ++ pretty code ++ "</p><p>Message: " ++ message ++ ".</p>" |}.

Definition post_root : http_server.Request :=
  {| http_server.raw_requestline := "POST / HTTP/1.1" ++ CRLF;
     http_server.requestline := "POST / HTTP/1.1";
     http_server.command := "POST";
     http_server.path := "/";
     http_server.request_version := "HTTP/1.1" |}.

End Samples.

(** ** More sample inputs *)

Module MoreSamples.

(** Status 200 with the raw body [raw], which decodes to the JSON [v]. *)
Definition ok_body (raw : string) (v : Py.Value)
  : aiohttp.Outcome aiohttp.ClientResponse :=
  aiohttp.Completed
    {| aiohttp.status := 200;
       aiohttp.text := aiohttp.Completed raw;
       aiohttp.json := aiohttp.Completed v |}.

(** [{"context": null}], [{"context": 3}] and [null]. *)
Definition context_null : aiohttp.Outcome aiohttp.ClientResponse :=
  ok_body ("{" ++ DQ ++ "context" ++ DQ ++ ": null}")
          (Py.Dict [("context", Py.None_)]).

Definition context_three : aiohttp.Outcome aiohttp.ClientResponse :=
  ok_body ("{" ++ DQ ++ "context" ++ DQ ++ ": 3}")
          (Py.Dict [("context", Py.Int 3)]).

Definition body_null : aiohttp.Outcome aiohttp.ClientResponse :=
  ok_body "null" Py.None_.

(** [GET /healthz HTTP/1.1], the probe of a hosting platform. *)
Definition get_healthz : http_server.Request :=
  {| http_server.raw_requestline := "GET /healthz HTTP/1.1" ++ CRLF;
     http_server.requestline := "GET /healthz HTTP/1.1";
     http_server.command := "GET";
     http_server.path := "/healthz";
     http_server.request_version := "HTTP/1.1" |}.

(** [GET /] without a version: an HTTP/0.9 request. *)
Definition get_bare : http_server.Request :=
  {| http_server.raw_requestline := "GET /" ++ CRLF;
     http_server.requestline := "GET /";
     http_server.command := "GET";
     http_server.path := "/";
     http_server.request_version := "HTTP/0.9" |}.

(** [HEAD /healthz HTTP/1.1]. *)
Definition head_healthz : http_server.Request :=
  {| http_server.raw_requestline := "HEAD /healthz HTTP/1.1" ++ CRLF;
     http_server.requestline := "HEAD /healthz HTTP/1.1";
     http_server.command := "HEAD";
     http_server.path := "/healthz";
     http_server.request_version := "HTTP/1.1" |}.

(** A GET whose target does not end within the 65537 bytes read: the line
    is cut there, and nothing of it is parsed. *)
Definition get_endless : http_server.Request :=
  {| http_server.raw_requestline :=
       "GET /" ++ string_of_list_ascii (List.repeat (Ascii.ascii_of_nat 97) (Z.to_nat 65532));
     http_server.requestline := "";
     http_server.command := "";
     http_server.path := "";
     http_server.request_version := "" |}.

(** A backend that is down until it has been asked once: the first request
    is refused, every later one gets the context [c]. *)
Definition warming_up (c : string) : aiohttp.Backend := fun history _ =>
  match history with
  | [] => aiohttp.Failed aiohttp.ConnectionFailed "Cannot connect to host"
  | _ => Samples.ok_context c
  end.

(** A host whose SDK never raises, in an empty environment. *)
Definition willing_host : runtime.Host :=
  {| runtime.environ := ∅;
     runtime.journal := [];
     runtime.calls := [];
     runtime.sdk := fun _ _ => None;
     runtime.jwt := "eyJhbGciOiJIUzI1NiJ9.e30.sig";
     runtime.room_name := "test-room-debug";
     runtime.room_sid := "RM_x7Qp" |}.

(** A host on which the voice-activity detector cannot be loaded. *)
Definition no_detector : runtime.Host :=
  {| runtime.environ := ∅;
     runtime.journal := [];
     runtime.calls := [];
     runtime.sdk := fun _ c =>
       match c with
       | runtime.VAD_load =>
           Some (Py.mkExc Py.ClientConnectorError "Cannot download the model")
       | _ => None
       end;
     runtime.jwt := "";
     runtime.room_name := "";
     runtime.room_sid := "" |}.

(** A configured host: the primary URL is set but empty, the fallback one
    is set. [sdk] decides which calls raise. *)
Definition configured (sdk : list runtime.Call -> runtime.Call -> option Py.Exc)
  : runtime.Host :=
  {| runtime.environ :=
       {[ "LIVEKIT_URL" := "";
          "NEXT_PUBLIC_LIVEKIT_URL" := "wss://bhoomi.livekit.cloud";
          "LIVEKIT_API_KEY" := "APIkey";
          "LIVEKIT_API_SECRET" := "shh" ]};
     runtime.journal := [];
     runtime.calls := [];
     runtime.sdk := sdk;
     runtime.jwt := "eyJhbGciOiJIUzI1NiJ9.e30.sig";
     runtime.room_name := "test-room-debug";
     runtime.room_sid := "RM_x7Qp" |}.

Definition refuses_connect : list runtime.Call -> runtime.Call -> option Py.Exc :=
  fun _ c =>
    match c with
    | runtime.room_connect _ _ =>
        Some (Py.mkExc Py.ClientConnectorError "engine: signal failure")
    | _ => None
    end.

Definition fails_disconnect : list runtime.Call -> runtime.Call -> option Py.Exc :=
  fun _ c =>
    match c with
    | runtime.room_disconnect => Some (Py.mkExc Py.TimeoutError "disconnect timed out")
    | _ => None
    end.

(** A host with the key missing. *)
Definition keyless : runtime.Host :=
  {| runtime.environ :=
       {[ "LIVEKIT_URL" := "wss://bhoomi.livekit.cloud";
          "LIVEKIT_API_SECRET" := "shh" ]};
     runtime.journal := [];
     runtime.calls := [];
     runtime.sdk := fun _ _ => None;
     runtime.jwt := "";
     runtime.room_name := "";
     runtime.room_sid := "" |}.

End MoreSamples.

(** * Properties *)

(** ** The monad and the exception handler *)

Section Effects.

Context {A B : Type}.

Lemma run_ret (a : A) (w : World) : run (mret a) w = (Returned a, w).
Proof. reflexivity. Qed.

Lemma run_bind (m : M A) (k : A -> M B) (w : World) :
  run (m ≫= k) w =
  match run m w with
  | (Returned a, w') => run (k a) w'
  | (Raised e, w') => (Raised e, w')
  end.
Proof. reflexivity. Qed.

(** [except Exception] lets a cancellation through. *)
Lemma try_except_passes_cancellation (handler : Py.Exc -> M A) (msg : string)
    (w : World) :
  run (try_except_Exception (raise (Py.mkExc Py.CancelledError msg)) handler) w
  = (Raised (Py.mkExc Py.CancelledError msg), w).
Proof. reflexivity. Qed.

(** Every failure of the HTTP client is an [Exception]. *)
Lemma failure_is_Exception (f : aiohttp.Failure) (msg : string) :
  Py.is_Exception (Py.exc_class (aiohttp.exc_of f msg)) = true.
Proof. destruct f; reflexivity. Qed.

End Effects.

Lemma dict_get_lookup (d : list (string * Py.Value)) (key : string)
    (dflt : Py.Value) :
  Py.dict_get d key dflt = default dflt (Py.dict_lookup d key).
Proof.
  induction d as [|[k v] rest IH]; simpl; [reflexivity|].
  destruct (String.eqb k key); [reflexivity | exact IH].
Qed.

Lemma truthy_Str (s : string) : Py.truthy (Py.Str s) = true <-> s <> "".
Proof.
  simpl. destruct (String.eqb_spec s ""); simpl; split; congruence.
Qed.

(** ** The body of the [try] statement, case by case *)

Section TryBody.

Context `{Py.Repr}.
Variables (self : LoreTool.Self) (query spoiler_mode : string) (w : World).

Let rq := LoreTool.request self query spoiler_mode.

Ltac exec :=
  unfold run, LoreTool.lookup_lore_try, async_with, session_post,
    ClientSession_enter, ClientSession_exit, response_release, modify; cbn [fst snd
    log outbox live_sessions live_responses net Nat.pred].

(** The request is not answered: the failure's exception leaves the body. *)
Lemma try_post_failed (f : aiohttp.Failure) (msg : string) :
  net w (outbox w) rq = aiohttp.Failed f msg ->
  run (LoreTool.lookup_lore_try self query spoiler_mode) w
  = (Raised (aiohttp.exc_of f msg), after w rq []).
Proof.
  intros Hnet. exec. fold rq. rewrite Hnet. unfold after. rewrite app_nil_r.
  reflexivity.
Qed.

Section Answered.

Variable r : aiohttp.ClientResponse.
Hypothesis Hnet : net w (outbox w) rq = aiohttp.Completed r.

Ltac answered := exec; fold rq; rewrite Hnet; cbn [aiohttp.status].

(** Status other than 200, body read: the error is logged. *)
Lemma try_status_error (body : string) :
  aiohttp.status r <> 200 ->
  aiohttp.text r = aiohttp.Completed body ->
  run (LoreTool.lookup_lore_try self query spoiler_mode) w
  = (Returned LoreTool.CANNOT_ACCESS,
     after w rq [logging.mkRecord logging.ERROR
                   ("RAG API Error (" ++ pretty (aiohttp.status r) ++ "): "
                      ++ body)]).
Proof.
  intros Hst Htext. answered.
  destruct (Z.eqb_spec (aiohttp.status r) 200) as [|_]; [contradiction|].
  cbn [negb]. rewrite Htext. reflexivity.
Qed.

(** Status other than 200, body not readable: the read's exception
    leaves the body, and nothing is logged there. *)
Lemma try_status_error_unread (f : aiohttp.Failure) (msg : string) :
  aiohttp.status r <> 200 ->
  aiohttp.text r = aiohttp.Failed f msg ->
  run (LoreTool.lookup_lore_try self query spoiler_mode) w
  = (Raised (aiohttp.exc_of f msg), after w rq []).
Proof.
  intros Hst Htext. answered.
  destruct (Z.eqb_spec (aiohttp.status r) 200) as [|_]; [contradiction|].
  cbn [negb]. rewrite Htext. unfold after. rewrite app_nil_r. reflexivity.
Qed.

(** Status 200, body not decodable as JSON. *)
Lemma try_json_failed (f : aiohttp.Failure) (msg : string) :
  aiohttp.status r = 200 ->
  aiohttp.json r = aiohttp.Failed f msg ->
  run (LoreTool.lookup_lore_try self query spoiler_mode) w
  = (Raised (aiohttp.exc_of f msg), after w rq []).
Proof.
  intros Hst Hjson. answered. rewrite Hst. cbn [Z.eqb Pos.eqb negb].
  rewrite Hjson. unfold after. rewrite app_nil_r. reflexivity.
Qed.

(** Status 200, JSON that is not an object: [data.get] does not exist. *)
Lemma try_json_not_dict (data : Py.Value) :
  aiohttp.status r = 200 ->
  aiohttp.json r = aiohttp.Completed data ->
  (forall d, data <> Py.Dict d) ->
  run (LoreTool.lookup_lore_try self query spoiler_mode) w
  = (Raised (Py.mkExc Py.AttributeError
               ("'" ++ Py.type_name data ++ "' object has no attribute 'get'")),
     after w rq []).
Proof.
  intros Hst Hjson Hnd. answered. rewrite Hst. cbn [Z.eqb Pos.eqb negb].
  rewrite Hjson. unfold after. rewrite app_nil_r.
  destruct data; try reflexivity. exfalso. exact (Hnd d eq_refl).
Qed.

(** Status 200 and a JSON object: the context decides. *)
Lemma try_json_dict (d : list (string * Py.Value)) :
  aiohttp.status r = 200 ->
  aiohttp.json r = aiohttp.Completed (Py.Dict d) ->
  run (LoreTool.lookup_lore_try self query spoiler_mode) w
  = (Returned
       (let context := Py.dict_get d "context" (Py.Str "") in
        if Py.truthy context
        then "FOUND ARCHIVE RECORDS:" ++ LF ++ Py.format context
        else LoreTool.SILENT),
     after w rq []).
Proof.
  intros Hst Hjson. answered. rewrite Hst. cbn [Z.eqb Pos.eqb negb].
  rewrite Hjson. unfold after. rewrite app_nil_r. cbv zeta.
  cbv beta iota delta [await getattr_get mbind M_bind mret M_ret].
  destruct (Py.truthy (Py.dict_get d "context" (Py.Str ""))); reflexivity.
Qed.

End Answered.

(** Whatever leaves the body of the [try] is an [Exception]. *)
Lemma try_raises_Exception (e : Py.Exc) (w' : World) :
  run (LoreTool.lookup_lore_try self query spoiler_mode) w = (Raised e, w') ->
  Py.is_Exception (Py.exc_class e) = true.
Proof.
  destruct (net w (outbox w) rq) as [r|f msg] eqn:Hnet.
  - destruct (Z.eq_dec (aiohttp.status r) 200) as [Hst|Hst].
    + destruct (aiohttp.json r) as [data|f msg] eqn:Hjson.
      * destruct data;
          try (rewrite (try_json_not_dict r Hnet _ Hst Hjson) by discriminate;
               intros [= <- _]; reflexivity).
        rewrite (try_json_dict r Hnet _ Hst Hjson). discriminate.
      * rewrite (try_json_failed r Hnet _ _ Hst Hjson).
        intros [= <- _]. apply failure_is_Exception.
    + destruct (aiohttp.text r) as [body|f msg] eqn:Htext.
      * rewrite (try_status_error r Hnet _ Hst Htext). discriminate.
      * rewrite (try_status_error_unread r Hnet _ _ Hst Htext).
        intros [= <- _]. apply failure_is_Exception.
  - rewrite (try_post_failed _ _ Hnet). intros [= <- _].
    apply failure_is_Exception.
Qed.

(** The body issues exactly one request, closes what it opens and leaves
    the backend as it is; it only adds to the log. *)
Lemma try_frame :
  exists (res : Py.Result string) (recs : list logging.LogRecord),
    run (LoreTool.lookup_lore_try self query spoiler_mode) w
    = (res, after w rq recs).
Proof.
  destruct (net w (outbox w) rq) as [r|f msg] eqn:Hnet.
  - destruct (Z.eq_dec (aiohttp.status r) 200) as [Hst|Hst].
    + destruct (aiohttp.json r) as [data|f msg] eqn:Hjson.
      * destruct data;
          try (rewrite (try_json_not_dict r Hnet _ Hst Hjson) by discriminate;
               eauto).
        rewrite (try_json_dict r Hnet _ Hst Hjson). eauto.
      * rewrite (try_json_failed r Hnet _ _ Hst Hjson). eauto.
    + destruct (aiohttp.text r) as [body|f msg] eqn:Htext.
      * rewrite (try_status_error r Hnet _ Hst Htext). eauto.
      * rewrite (try_status_error_unread r Hnet _ _ Hst Htext). eauto.
  - rewrite (try_post_failed _ _ Hnet). eauto.
Qed.

End TryBody.

(** ** The model run on the samples *)

Example run_found :
  fst (run (LoreTool.call (H := Samples.repr) Samples.tool "Ashen King" None)
           (Samples.world (Samples.ok_context "Ashen King died in Act 2")))
  = Returned ("FOUND ARCHIVE RECORDS:" ++ LF ++ "Ashen King died in Act 2").
Proof. reflexivity. Qed.

Example run_server_error :
  run (LoreTool.call (H := Samples.repr) Samples.tool "Ashen King" None)
      (Samples.world Samples.server_error)
  = (Returned LoreTool.CANNOT_ACCESS,
     after (Samples.world Samples.server_error)
       (LoreTool.request Samples.tool "Ashen King" "S1")
       [logging.mkRecord logging.INFO "Looking up lore: Ashen King [Mode: S1]";
        logging.mkRecord logging.ERROR "RAG API Error (500): Internal Server Error"]).
Proof. reflexivity. Qed.

(** A 200 response whose JSON is an array: [data.get] raises, and the
    handler reports it. *)
Example run_json_array :
  run (LoreTool.call (H := Samples.repr) Samples.tool "Ashen King" (Some "S2"))
      (Samples.world
         (aiohttp.Completed
            (aiohttp.mkResponse 200 (aiohttp.Completed "[]")
               (aiohttp.Completed (Py.List_ [])))))
  = (Returned LoreTool.DISTURBANCE,
     after (Samples.world
              (aiohttp.Completed
                 (aiohttp.mkResponse 200 (aiohttp.Completed "[]")
                    (aiohttp.Completed (Py.List_ [])))))
       (LoreTool.request Samples.tool "Ashen King" "S2")
       [logging.mkRecord logging.INFO "Looking up lore: Ashen King [Mode: S2]";
        logging.mkRecord logging.ERROR
          "Failed to query RAG API: 'list' object has no attribute 'get'"]).
Proof. reflexivity. Qed.

(** A context that is not text but is true: it is rendered by the
    interpreter and wrapped like any other. *)
Example run_context_number :
  fst (run (LoreTool.call (H := Samples.repr) Samples.tool "Ashen King" None)
           (Samples.world
              (aiohttp.Completed
                 (aiohttp.mkResponse 200 (aiohttp.Completed "")
                    (aiohttp.Completed (Py.Dict [("context", Py.Int 7)]))))))
  = Returned ("FOUND ARCHIVE RECORDS:" ++ LF ++ "7").
Proof. reflexivity. Qed.

Example run_head_request :
  http_server.status_code
    (HealthHandler.respond Samples.server MoreSamples.head_healthz)
  = Some 501.
Proof. reflexivity. Qed.

(** ** [lookup_lore] as a whole *)

Lemma after_emit (w : World) (rq : aiohttp.Request) (i : logging.LogRecord)
    (recs : list logging.LogRecord) :
  after (emit i w) rq recs = after w rq (i :: recs).
Proof. unfold after, emit; cbn. rewrite <- app_assoc. reflexivity. Qed.

Lemma emit_after (w : World) (rq : aiohttp.Request) (e : logging.LogRecord)
    (recs : list logging.LogRecord) :
  emit e (after w rq recs) = after w rq (recs ++ [e]).
Proof. unfold after, emit; cbn. rewrite <- app_assoc. reflexivity. Qed.

Section LookupLore.

Context `{Py.Repr}.
Variables (self : LoreTool.Self) (query spoiler_mode : string) (w : World).

Let rq := LoreTool.request self query spoiler_mode.
Let info := LoreTool.info_record query spoiler_mode.

(** The handler turns whatever the body raises into the fixed text. *)
Lemma lookup_lore_unfold :
  run (LoreTool.lookup_lore self query spoiler_mode) w =
  match run (LoreTool.lookup_lore_try self query spoiler_mode) (emit info w) with
  | (Returned text, w') => (Returned text, w')
  | (Raised e, w') =>
      (Returned LoreTool.DISTURBANCE,
       emit (logging.mkRecord logging.ERROR
               ("Failed to query RAG API: " ++ Py.exc_str e)) w')
  end.
Proof.
  unfold LoreTool.lookup_lore, run, logger_info, logger_error, modify,
    try_except_Exception.
  cbv beta iota delta [mbind M_bind mret M_ret].
  unfold info, LoreTool.info_record. set (w0 := emit _ w).
  destruct (LoreTool.lookup_lore_try self query spoiler_mode w0)
    as [[text|e] w'] eqn:Hbody; [reflexivity|].
  rewrite (try_raises_Exception self query spoiler_mode w0 e w' Hbody).
  reflexivity.
Qed.

(** Every call returns a text, issues exactly one request, closes what it
    opened and only adds to the log. *)
Lemma lookup_lore_frame :
  exists (text : string) (recs : list logging.LogRecord),
    run (LoreTool.lookup_lore self query spoiler_mode) w
    = (Returned text, after w rq (info :: recs)).
Proof.
  rewrite lookup_lore_unfold.
  destruct (try_frame self query spoiler_mode (emit info w))
    as ([text|e] & recs & ->); fold rq; rewrite after_emit.
  - eauto.
  - rewrite emit_after. eexists _, _. rewrite app_comm_cons. reflexivity.
Qed.

Lemma lookup_lore_outbox :
  outbox (snd (run (LoreTool.lookup_lore self query spoiler_mode) w))
  = (outbox w ++ [rq])%list.
Proof. destruct lookup_lore_frame as (text & recs & ->). reflexivity. Qed.

(** The text returned is read off the backend's answer. *)
Lemma lookup_lore_result :
  fst (run (LoreTool.lookup_lore self query spoiler_mode) w)
  = Returned (LoreTool.result_of_answer (net w (outbox w) rq)).
Proof.
  rewrite lookup_lore_unfold. unfold LoreTool.result_of_answer.
  assert (Hw : net (emit info w) (outbox (emit info w)) rq = net w (outbox w) rq)
    by reflexivity.
  destruct (net w (outbox w) rq) as [r|f msg] eqn:Hnet.
  - destruct (Z.eqb_spec (aiohttp.status r) 200) as [Hst|Hst].
    + destruct (aiohttp.json r) as [data|f msg] eqn:Hjson.
      * destruct data;
          try (rewrite (try_json_not_dict self query spoiler_mode _ r Hw _ Hst Hjson)
                 by discriminate; reflexivity).
        rewrite (try_json_dict self query spoiler_mode _ r Hw _ Hst Hjson).
        cbn [fst]. rewrite dict_get_lookup.
        destruct (Py.dict_lookup d "context"); reflexivity.
      * rewrite (try_json_failed self query spoiler_mode _ r Hw _ _ Hst Hjson).
        reflexivity.
    + destruct (aiohttp.text r) as [body|f msg] eqn:Htext.
      * rewrite (try_status_error self query spoiler_mode _ r Hw _ Hst Htext).
        reflexivity.
      * rewrite (try_status_error_unread self query spoiler_mode _ r Hw _ _ Hst Htext).
        reflexivity.
  - rewrite (try_post_failed self query spoiler_mode _ _ _ Hw). reflexivity.
Qed.

End LookupLore.

(** ** The tool's call contract *)

(** C1. Whatever the backend does (error status, network failure, timeout,
    malformed body), [lookup_lore] returns a text and raises nothing; and
    whenever an exception leaves the body of its [try], the text is exactly
    the "disturbance in the Mesh" message and the exception's text is logged
    as an error, as the last record. The third part names the backend's
    ways of making that happen: the request fails (network, timeout), the
    body of a 200 response does not decode, the body of an error response
    cannot be read. *)
Theorem lookup_lore_never_raises `{Py.Repr} (self : LoreTool.Self)
    (query spoiler_mode : string) (w : World) :
  (exists (text : string) (w' : World),
      run (LoreTool.lookup_lore self query spoiler_mode) w = (Returned text, w'))
  /\ (forall (e : Py.Exc) (w1 : World),
        run (LoreTool.lookup_lore_try self query spoiler_mode)
            (emit (LoreTool.info_record query spoiler_mode) w)
        = (Raised e, w1) ->
        run (LoreTool.lookup_lore self query spoiler_mode) w
        = (Returned "A disturbance in the Mesh prevents me from accessing the archives.",
           emit (logging.mkRecord logging.ERROR
                   ("Failed to query RAG API: " ++ Py.exc_str e)) w1))
  /\ (forall (f : aiohttp.Failure) (msg : string),
        let answer := net w (outbox w) (LoreTool.request self query spoiler_mode) in
        answer = aiohttp.Failed f msg
        \/ (exists r, answer = aiohttp.Completed r /\ aiohttp.status r = 200
                      /\ aiohttp.json r = aiohttp.Failed f msg)
        \/ (exists r, answer = aiohttp.Completed r /\ aiohttp.status r <> 200
                      /\ aiohttp.text r = aiohttp.Failed f msg) ->
        run (LoreTool.lookup_lore self query spoiler_mode) w
        = (Returned "A disturbance in the Mesh prevents me from accessing the archives.",
           after w (LoreTool.request self query spoiler_mode)
             [LoreTool.info_record query spoiler_mode;
              logging.mkRecord logging.ERROR ("Failed to query RAG API: " ++ msg)])).
Proof.
  split; [|split].
  - destruct (lookup_lore_frame self query spoiler_mode w) as (text & recs & Hrun).
    eauto.
  - intros e w1 Hbody. rewrite lookup_lore_unfold, Hbody. reflexivity.
  - intros f msg answer Hcases. subst answer. rewrite lookup_lore_unfold.
    set (w0 := emit (LoreTool.info_record query spoiler_mode) w).
    assert (Hbody : run (LoreTool.lookup_lore_try self query spoiler_mode) w0
                    = (Raised (aiohttp.exc_of f msg),
                       after w0 (LoreTool.request self query spoiler_mode) [])).
    { destruct Hcases as [Hnet | [(r & Hnet & Hst & Hjson) | (r & Hnet & Hst & Htext)]].
      - exact (try_post_failed self query spoiler_mode w0 f msg Hnet).
      - exact (try_json_failed self query spoiler_mode w0 r Hnet f msg Hst Hjson).
      - exact (try_status_error_unread self query spoiler_mode w0 r Hnet f msg Hst Htext). }
    rewrite Hbody. unfold w0. rewrite after_emit, emit_after. reflexivity.
Qed.

(** A request that gets no answer within the timeout: the body raises the
    timeout error, and the caller gets the disturbance message. *)
Lemma lookup_lore_never_raises_witness :
  run (LoreTool.lookup_lore (H := Samples.repr) Samples.tool "Who is the Ashen King?" "S1")
      (Samples.world Samples.timed_out)
  = (Returned "A disturbance in the Mesh prevents me from accessing the archives.",
     after (Samples.world Samples.timed_out)
       (LoreTool.request Samples.tool "Who is the Ashen King?" "S1")
       [LoreTool.info_record "Who is the Ashen King?" "S1";
        logging.mkRecord logging.ERROR "Failed to query RAG API: "])
  /\ fst (run (LoreTool.lookup_lore (H := Samples.repr) Samples.tool
                 "Who is the Ashen King?" "S1")
              (Samples.world Samples.ok_malformed))
     = Returned "A disturbance in the Mesh prevents me from accessing the archives.".
Proof.
  split.
  - destruct (@lookup_lore_never_raises Samples.repr Samples.tool
                "Who is the Ashen King?" "S1" (Samples.world Samples.timed_out))
      as (_ & Hexc & _).
    rewrite (Hexc (aiohttp.exc_of aiohttp.TimedOut "")
               (after (Samples.world Samples.timed_out)
                  (LoreTool.request Samples.tool "Who is the Ashen King?" "S1")
                  [LoreTool.info_record "Who is the Ashen King?" "S1"]));
      reflexivity.
  - destruct (@lookup_lore_never_raises Samples.repr Samples.tool
                "Who is the Ashen King?" "S1" (Samples.world Samples.ok_malformed))
      as (_ & _ & Hways).
    rewrite (Hways aiohttp.MalformedJson "Expecting value: line 1 column 1 (char 0)");
      [reflexivity|].
    right; left. eexists. repeat split.
Defined.

(** C2. Status 200 and a non-empty text [c] in the "context" field: the
    result is "FOUND ARCHIVE RECORDS:", a line feed, and [c]. *)
Theorem lookup_lore_found `{Py.Repr} (self : LoreTool.Self)
    (query spoiler_mode : string) (w : World) (r : aiohttp.ClientResponse)
    (d : list (string * Py.Value)) (c : string) :
  net w (outbox w) (LoreTool.request self query spoiler_mode) = aiohttp.Completed r ->
  aiohttp.status r = 200 ->
  aiohttp.json r = aiohttp.Completed (Py.Dict d) ->
  Py.dict_lookup d "context" = Some (Py.Str c) ->
  c <> "" ->
  fst (run (LoreTool.lookup_lore self query spoiler_mode) w)
  = Returned ("FOUND ARCHIVE RECORDS:" ++ LF ++ c).
Proof.
  intros Hnet Hst Hjson Hctx Hc.
  rewrite lookup_lore_result, Hnet. unfold LoreTool.result_of_answer.
  rewrite Hst, Hjson, Hctx. cbn [Z.eqb Pos.eqb].
  apply truthy_Str in Hc. rewrite Hc. reflexivity.
Qed.

Lemma lookup_lore_found_witness :
  fst (run (LoreTool.lookup_lore (H := Samples.repr) Samples.tool
              "How did the Ashen King die?" "S3")
           (Samples.world (Samples.ok_context "Ashen King died in Act 2")))
  = Returned "FOUND ARCHIVE RECORDS:
Ashen King died in Act 2".
Proof.
  refine (@lookup_lore_found Samples.repr Samples.tool
            "How did the Ashen King die?" "S3"
            (Samples.world (Samples.ok_context "Ashen King died in Act 2"))
            _ [("context", Py.Str "Ashen King died in Act 2")]
            "Ashen King died in Act 2" eq_refl eq_refl eq_refl eq_refl _).
  discriminate.
Defined.

(** C3. Status 200 and a "context" field that is missing or the empty text:
    the result is the "archives are silent" message. *)
Theorem lookup_lore_silent `{Py.Repr} (self : LoreTool.Self)
    (query spoiler_mode : string) (w : World) (r : aiohttp.ClientResponse)
    (d : list (string * Py.Value)) :
  net w (outbox w) (LoreTool.request self query spoiler_mode) = aiohttp.Completed r ->
  aiohttp.status r = 200 ->
  aiohttp.json r = aiohttp.Completed (Py.Dict d) ->
  Py.dict_lookup d "context" = None \/ Py.dict_lookup d "context" = Some (Py.Str "") ->
  fst (run (LoreTool.lookup_lore self query spoiler_mode) w)
  = Returned "The archives are silent on this matter. I find no records matching your query.".
Proof.
  intros Hnet Hst Hjson Hctx.
  rewrite lookup_lore_result, Hnet. unfold LoreTool.result_of_answer.
  rewrite Hst, Hjson. cbn [Z.eqb Pos.eqb].
  destruct Hctx as [-> | ->]; reflexivity.
Qed.

Lemma lookup_lore_silent_witness :
  fst (run (LoreTool.lookup_lore (H := Samples.repr) Samples.tool "Who is Bhoomi?" "S1")
           (Samples.world (Samples.ok_context "")))
  = Returned "The archives are silent on this matter. I find no records matching your query."
  /\ fst (run (LoreTool.lookup_lore (H := Samples.repr) Samples.tool "Who is Bhoomi?" "S1")
              (Samples.world Samples.ok_empty_object))
     = Returned "The archives are silent on this matter. I find no records matching your query.".
Proof.
  split.
  - exact (@lookup_lore_silent Samples.repr Samples.tool "Who is Bhoomi?" "S1"
             (Samples.world (Samples.ok_context "")) _ [("context", Py.Str "")]
             eq_refl eq_refl eq_refl (or_intror eq_refl)).
  - exact (@lookup_lore_silent Samples.repr Samples.tool "Who is Bhoomi?" "S1"
             (Samples.world Samples.ok_empty_object) _ []
             eq_refl eq_refl eq_refl (or_introl eq_refl)).
Defined.

(** C4, as stated: any status other than 200 gives the "cannot access"
    message. It fails where the body of the error response cannot be read:
    the read raises inside the [try], and the handler answers with the
    disturbance message instead. (It also fails for a redirect the client
    follows: the tool then never sees the redirecting status, only the
    response the redirect leads to.) *)
Lemma lookup_lore_status_error_counterexample :
  ~ (forall (R : Py.Repr) (self : LoreTool.Self) (query spoiler_mode : string)
            (w : World) (r : aiohttp.ClientResponse),
        net w (outbox w) (LoreTool.request self query spoiler_mode)
        = aiohttp.Completed r ->
        aiohttp.status r <> 200 ->
        fst (run (LoreTool.lookup_lore self query spoiler_mode) w)
        = Returned "I cannot access the archives at this moment. My connection is hazy.").
Proof.
  intros Hclaim.
  specialize (Hclaim Samples.repr Samples.tool "Who is Bhoomi?" "S1"
                (Samples.world Samples.server_error_cut) _ eq_refl).
  cbn [aiohttp.status] in Hclaim. specialize (Hclaim ltac:(discriminate)).
  vm_compute in Hclaim. discriminate Hclaim.
Qed.

(** C4, amended. When the response the client hands to the tool (the last
    one, where redirects were followed) has a status other than 200 and its
    body is read as the text [body]: the result is the "cannot access"
    message, and one error record with that status and that body is
    logged. *)
Theorem lookup_lore_status_error `{Py.Repr} (self : LoreTool.Self)
    (query spoiler_mode : string) (w : World) (r : aiohttp.ClientResponse)
    (body : string) :
  net w (outbox w) (LoreTool.request self query spoiler_mode) = aiohttp.Completed r ->
  aiohttp.status r <> 200 ->
  aiohttp.text r = aiohttp.Completed body ->
  let (res, w') := run (LoreTool.lookup_lore self query spoiler_mode) w in
  res = Returned "I cannot access the archives at this moment. My connection is hazy."
  /\ log w' = (log w ++
                [LoreTool.info_record query spoiler_mode;
                 logging.mkRecord logging.ERROR
                   ("RAG API Error (" ++ pretty (aiohttp.status r) ++ "): "
                      ++ body)%string])%list.
Proof.
  intros Hnet Hst Htext. rewrite lookup_lore_unfold.
  rewrite (try_status_error self query spoiler_mode
             (emit (LoreTool.info_record query spoiler_mode) w) r Hnet body Hst Htext).
  rewrite after_emit. split; reflexivity.
Qed.

Lemma lookup_lore_status_error_witness :
  let (res, w') :=
    run (LoreTool.lookup_lore (H := Samples.repr) Samples.tool "Who is Bhoomi?" "S1")
        (Samples.world Samples.server_error) in
  res = Returned "I cannot access the archives at this moment. My connection is hazy."
  /\ log w' = [LoreTool.info_record "Who is Bhoomi?" "S1";
               logging.mkRecord logging.ERROR
                 "RAG API Error (500): Internal Server Error"].
Proof.
  refine (@lookup_lore_status_error Samples.repr Samples.tool "Who is Bhoomi?" "S1"
            (Samples.world Samples.server_error) _ "Internal Server Error"
            eq_refl _ eq_refl).
  discriminate.
Defined.

(** ** The outbound request *)

(** C6. Called with the query alone, the tool sends a JSON body whose
    [spoilerMode] is "S1". *)
Theorem lookup_lore_default_spoiler_mode `{Py.Repr} (self : LoreTool.Self)
    (query : string) (w : World) :
  aiohttp.json_body <$> outbox (snd (run (LoreTool.call self query None) w))
  = ((aiohttp.json_body <$> outbox w)
       ++ [Py.Dict [("query", Py.Str query); ("spoilerMode", Py.Str "S1")]])%list.
Proof.
  unfold LoreTool.call. cbn [default]. rewrite lookup_lore_outbox.
  rewrite fmap_app. reflexivity.
Qed.

(** C7. Every call issues exactly one request: a POST to the URL of
    [INTERNAL_API_URL] (or the local default), with the JSON body of query
    and spoiler mode, the bearer header made from [INTERNAL_API_SECRET], and
    a timeout of five seconds. *)
Theorem lookup_lore_issues_one_post `{Py.Repr} (environ : os.Environ)
    (query spoiler_mode : string) (w : World) :
  outbox (snd (run (LoreTool.lookup_lore (LoreTool.__init__ environ)
                      query spoiler_mode) w))
  = (outbox w ++
      [ {| aiohttp.method := aiohttp.POST;
           aiohttp.url :=
             match environ !! "INTERNAL_API_URL" with
             | Some configured => configured
             | None => "http://localhost:3000/api/internal/rag"
             end;
           aiohttp.json_body :=
             Py.Dict [("query", Py.Str query); ("spoilerMode", Py.Str spoiler_mode)];
           aiohttp.headers :=
             [("Authorization",
               ("Bearer " ++ match environ !! "INTERNAL_API_SECRET" with
                             | Some secret => secret
                             | None => "None"
                             end)%string)];
           aiohttp.timeout := 5 |} ])%list.
Proof.
  rewrite lookup_lore_outbox.
  unfold LoreTool.request, LoreTool.__init__, os.getenv_default, os.getenv,
    Py.format_optional; cbn [LoreTool.api_url LoreTool.api_secret].
  destruct (environ !! "INTERNAL_API_URL"); reflexivity.
Qed.

(** C9. With [INTERNAL_API_SECRET] unset the call still goes through: it
    returns a text, and the one request it issues carries the header value
    "Bearer None". *)
Theorem lookup_lore_secret_unset `{Py.Repr} (environ : os.Environ)
    (query spoiler_mode : string) (w : World) :
  environ !! "INTERNAL_API_SECRET" = None ->
  exists (text : string) (w' : World) (rq : aiohttp.Request),
    run (LoreTool.lookup_lore (LoreTool.__init__ environ) query spoiler_mode) w
    = (Returned text, w')
    /\ outbox w' = (outbox w ++ [rq])%list
    /\ aiohttp.method rq = aiohttp.POST
    /\ aiohttp.headers rq = [("Authorization", "Bearer None")].
Proof.
  intros Hunset.
  destruct (lookup_lore_frame (LoreTool.__init__ environ) query spoiler_mode w)
    as (text & recs & Hrun).
  eexists text, _, _. split; [exact Hrun|]. split; [reflexivity|].
  split; [reflexivity|].
  unfold LoreTool.request, LoreTool.__init__, os.getenv;
    cbn [aiohttp.headers LoreTool.api_secret]. rewrite Hunset. reflexivity.
Qed.

Lemma lookup_lore_secret_unset_witness :
  exists (text : string) (w' : World) (rq : aiohttp.Request),
    run (LoreTool.lookup_lore (H := Samples.repr) (LoreTool.__init__ ∅)
           "Who is Bhoomi?" "S1")
        (Samples.world (Samples.ok_context "The digital chronicler."))
    = (Returned text, w')
    /\ outbox w' = [rq]
    /\ aiohttp.method rq = aiohttp.POST
    /\ aiohttp.headers rq = [("Authorization", "Bearer None")].
Proof.
  exact (@lookup_lore_secret_unset Samples.repr ∅ "Who is Bhoomi?" "S1"
           (Samples.world (Samples.ok_context "The digital chronicler."))
           eq_refl).
Defined.

(** C10. The spoiler mode is not checked: whatever text is passed, inside
    or outside S1, S2 and S3, the call returns and the request's body carries
    that very text as [spoilerMode]. *)
Theorem lookup_lore_forwards_spoiler_mode `{Py.Repr} (self : LoreTool.Self)
    (query s : string) (w : World) :
  exists (text : string) (w' : World),
    run (LoreTool.call self query (Some s)) w = (Returned text, w')
    /\ aiohttp.json_body <$> outbox w'
       = ((aiohttp.json_body <$> outbox w)
            ++ [Py.Dict [("query", Py.Str query); ("spoilerMode", Py.Str s)]])%list.
Proof.
  unfold LoreTool.call. cbn [default].
  destruct (lookup_lore_frame self query s w) as (text & recs & Hrun).
  eexists text, _. split; [exact Hrun|].
  cbn [outbox after]. rewrite fmap_app. reflexivity.
Qed.

(** ** No state between calls *)

(** C8. Against a backend that does not change, calling again with the
    same arguments gives the same result: the result is a function of the
    backend's answer to the request, whatever was logged or sent before, and
    a call leaves nothing behind but log records and the request it sent. *)
Theorem lookup_lore_idempotent `{Py.Repr} (self : LoreTool.Self)
    (query spoiler_mode : string) (w : World) :
  aiohttp.unchanged (net w) ->
  let first := run (LoreTool.lookup_lore self query spoiler_mode) w in
  let second := run (LoreTool.lookup_lore self query spoiler_mode) (snd first) in
  fst second = fst first
  /\ fst first = Returned (LoreTool.result_of_answer
                            (net w [] (LoreTool.request self query spoiler_mode)))
  /\ net (snd first) = net w
  /\ live_sessions (snd first) = live_sessions w
  /\ live_responses (snd first) = live_responses w.
Proof.
  intros Hsame first second. subst second.
  rewrite lookup_lore_result.
  assert (Hfirst : fst first = Returned (LoreTool.result_of_answer
            (net w [] (LoreTool.request self query spoiler_mode)))).
  { subst first. rewrite lookup_lore_result.
    rewrite (Hsame (outbox w) []). reflexivity. }
  assert (Hkeep : net (snd first) = net w
                  /\ live_sessions (snd first) = live_sessions w
                  /\ live_responses (snd first) = live_responses w).
  { subst first.
    destruct (lookup_lore_frame self query spoiler_mode w) as (text & recs & ->).
    repeat split. }
  destruct Hkeep as (Hnet & Hs & Hr).
  rewrite Hfirst, Hnet, (Hsame (outbox (snd first)) []). repeat split; assumption.
Qed.

Lemma lookup_lore_idempotent_witness :
  let w := Samples.world (Samples.ok_context "Ashen King died in Act 2") in
  let first :=
    run (LoreTool.lookup_lore (H := Samples.repr) Samples.tool "Ashen King" "S2") w in
  let second :=
    run (LoreTool.lookup_lore (H := Samples.repr) Samples.tool "Ashen King" "S2")
        (snd first) in
  fst second = fst first
  /\ fst first = Returned (LoreTool.result_of_answer (H := Samples.repr)
                            (net w [] (LoreTool.request Samples.tool "Ashen King" "S2")))
  /\ net (snd first) = net w
  /\ live_sessions (snd first) = live_sessions w
  /\ live_responses (snd first) = live_responses w.
Proof.
  apply (@lookup_lore_idempotent Samples.repr Samples.tool "Ashen King" "S2"
           (Samples.world (Samples.ok_context "Ashen King died in Act 2"))).
  intros h h' r. reflexivity.
Defined.

(** ** The liveness responder *)

(** ** What each writer of the response leaves in place *)

Section Writers.

Import http_server.

Variables (rq : Request) (c : Connection).

Ltac writer := intros; unfold send_response_only, send_header, end_headers,
  wfile_write; destruct (has_headers rq); reflexivity.

Lemma status_send_response_only code :
  status_code (send_response_only rq code c)
  = if has_headers rq then Some code else status_code c.
Proof. writer. Qed.

Lemma status_send_header k v : status_code (send_header rq k v c) = status_code c.
Proof. writer. Qed.

Lemma status_end_headers : status_code (end_headers rq c) = status_code c.
Proof. writer. Qed.

Lemma status_wfile_write d : status_code (wfile_write d c) = status_code c.
Proof. reflexivity. Qed.

Lemma headers_send_response_only code :
  headers (send_response_only rq code c) = headers c.
Proof. writer. Qed.

Lemma headers_send_header k v :
  headers (send_header rq k v c)
  = if has_headers rq then (headers c ++ [(k, v)])%list else headers c.
Proof. writer. Qed.

Lemma headers_end_headers : headers (end_headers rq c) = headers c.
Proof. writer. Qed.

Lemma headers_wfile_write d : headers (wfile_write d c) = headers c.
Proof. reflexivity. Qed.

Lemma ended_send_response_only code :
  headers_ended (send_response_only rq code c) = headers_ended c.
Proof. writer. Qed.

Lemma ended_send_header k v :
  headers_ended (send_header rq k v c) = headers_ended c.
Proof. writer. Qed.

Lemma ended_end_headers :
  headers_ended (end_headers rq c)
  = if has_headers rq then true else headers_ended c.
Proof. writer. Qed.

Lemma ended_wfile_write d : headers_ended (wfile_write d c) = headers_ended c.
Proof. reflexivity. Qed.

Lemma wfile_send_response_only code :
  wfile (send_response_only rq code c) = wfile c.
Proof. writer. Qed.

Lemma wfile_send_header k v : wfile (send_header rq k v c) = wfile c.
Proof. writer. Qed.

Lemma wfile_end_headers : wfile (end_headers rq c) = wfile c.
Proof. writer. Qed.

Lemma wfile_wfile_write d : wfile (wfile_write d c) = wfile c ++ d.
Proof. reflexivity. Qed.

Lemma stderr_send_response_only code :
  stderr (send_response_only rq code c) = stderr c.
Proof. writer. Qed.

Lemma stderr_send_header k v : stderr (send_header rq k v c) = stderr c.
Proof. writer. Qed.

Lemma stderr_end_headers : stderr (end_headers rq c) = stderr c.
Proof. writer. Qed.

Lemma stderr_wfile_write d : stderr (wfile_write d c) = stderr c.
Proof. reflexivity. Qed.

End Writers.

Lemma has_headers_iff (rq : http_server.Request) :
  http_server.has_headers rq = true
  <-> http_server.request_version rq <> "HTTP/0.9".
Proof.
  unfold http_server.has_headers.
  destruct (String.eqb_spec (http_server.request_version rq) "HTTP/0.9");
    cbn; split; congruence.
Qed.

Create Rewrite HintDb written.

#[local] Hint Rewrite
  status_send_response_only status_send_header status_end_headers
  status_wfile_write headers_send_response_only headers_send_header
  headers_end_headers headers_wfile_write ended_send_response_only
  ended_send_header ended_end_headers ended_wfile_write
  wfile_send_response_only wfile_send_header wfile_end_headers
  wfile_wfile_write stderr_send_response_only stderr_send_header
  stderr_end_headers stderr_wfile_write : written.

(** Reads a field off a sequence of writes, the last write first. *)
Ltac read_back :=
  unfold HealthHandler.do_GET, http_server.send_error, http_server.send_response,
    http_server.seq, http_server.log_request, HealthHandler.log_message;
  autorewrite with written.

(** What the handler writes for a request of the usual kind: the line is
    within the limit, not empty, and carries a version other than HTTP/0.9. *)
Lemma respond_dispatch (srv : http_server.Server) (rq : http_server.Request) :
  (Z.of_nat (String.length (http_server.raw_requestline rq)) <= 65536)%Z ->
  http_server.raw_requestline rq <> "" ->
  HealthHandler.respond srv rq
  = (if String.eqb (http_server.command rq) "GET"
     then HealthHandler.do_GET srv rq
     else http_server.send_error HealthHandler.log_message srv rq 501
            ("Unsupported method ("
               ++ http_server.repr srv (http_server.command rq) ++ ")"))
      http_server.fresh.
Proof.
  intros Hlen Hraw.
  unfold HealthHandler.respond, http_server.handle_one_request.
  destruct (Z.ltb_spec 65536
              (Z.of_nat (String.length (http_server.raw_requestline rq))))
    as [Hlong|_]; [lia|].
  destruct (String.eqb_spec (http_server.raw_requestline rq) "") as [|_];
    [contradiction|].
  cbn [http_server.getattr HealthHandler.class http_server.log_message].
  change (String.eqb ("do_" ++ http_server.command rq) "do_GET")
    with (String.eqb (http_server.command rq) "GET").
  destruct (String.eqb (http_server.command rq) "GET"); reflexivity.
Qed.




(** * Further properties of the lore tool *)

(** The whole effect of a call, read off the backend's answer. *)
Lemma lookup_lore_run `{Py.Repr} (self : LoreTool.Self)
    (query spoiler_mode : string) (w : World) :
  let rq := LoreTool.request self query spoiler_mode in
  run (LoreTool.lookup_lore self query spoiler_mode) w
  = (Returned (LoreTool.result_of_answer (net w (outbox w) rq)),
     after w rq (LoreTool.info_record query spoiler_mode
                   :: lookup_lore_records (net w (outbox w) rq))).
Proof.
  intros rq. rewrite lookup_lore_unfold.
  set (w0 := emit (LoreTool.info_record query spoiler_mode) w).
  assert (Hw : net w0 (outbox w0) rq = net w (outbox w) rq) by reflexivity.
  unfold LoreTool.result_of_answer, lookup_lore_records.
  destruct (net w (outbox w) rq) as [r|f msg] eqn:Hnet.
  - destruct (Z.eqb_spec (aiohttp.status r) 200) as [Hst|Hst].
    + destruct (aiohttp.json r) as [data|f msg] eqn:Hjson.
      * destruct data;
          try (rewrite (try_json_not_dict self query spoiler_mode w0 r Hw _ Hst Hjson)
                 by discriminate;
               unfold w0; rewrite after_emit, emit_after; reflexivity).
        rewrite (try_json_dict self query spoiler_mode w0 r Hw _ Hst Hjson).
        unfold w0. rewrite after_emit, dict_get_lookup. cbv zeta.
        destruct (Py.dict_lookup d "context"); reflexivity.
      * rewrite (try_json_failed self query spoiler_mode w0 r Hw _ _ Hst Hjson).
        unfold w0. rewrite after_emit, emit_after. reflexivity.
    + destruct (aiohttp.text r) as [body|f msg] eqn:Htext.
      * rewrite (try_status_error self query spoiler_mode w0 r Hw _ Hst Htext).
        unfold w0. rewrite after_emit. reflexivity.
      * rewrite (try_status_error_unread self query spoiler_mode w0 r Hw _ _ Hst Htext).
        unfold w0. rewrite after_emit, emit_after. reflexivity.
  - rewrite (try_post_failed self query spoiler_mode w0 _ _ Hw).
    unfold w0. rewrite after_emit, emit_after. reflexivity.
Qed.

(** X1. A context that is present but false in Python's sense ([null],
    [false], zero, an empty array or object) counts as no context: the
    result is the "archives are silent" message. *)
Theorem lookup_lore_falsy_context `{Py.Repr} (self : LoreTool.Self)
    (query spoiler_mode : string) (w : World) (r : aiohttp.ClientResponse)
    (d : list (string * Py.Value)) (v : Py.Value) :
  net w (outbox w) (LoreTool.request self query spoiler_mode) = aiohttp.Completed r ->
  aiohttp.status r = 200 ->
  aiohttp.json r = aiohttp.Completed (Py.Dict d) ->
  Py.dict_lookup d "context" = Some v ->
  In v [Py.None_; Py.Bool false; Py.Int 0; Py.Float 0; Py.Float (-0);
        Py.List_ []; Py.Dict []] ->
  fst (run (LoreTool.lookup_lore self query spoiler_mode) w)
  = Returned "The archives are silent on this matter. I find no records matching your query.".
Proof.
  intros Hnet Hst Hjson Hctx Hv.
  rewrite lookup_lore_result, Hnet. unfold LoreTool.result_of_answer.
  rewrite Hst, Hjson, Hctx. cbn [Z.eqb Pos.eqb].
  cbn [In] in Hv.
  destruct Hv as [<-|[<-|[<-|[<-|[<-|[<-|[<-|[]]]]]]]]; reflexivity.
Qed.

Lemma lookup_lore_falsy_context_witness :
  fst (run (LoreTool.lookup_lore (H := Samples.repr) Samples.tool "Who is Bhoomi?" "S1")
           (Samples.world MoreSamples.context_null))
  = Returned "The archives are silent on this matter. I find no records matching your query.".
Proof.
  refine (@lookup_lore_falsy_context Samples.repr Samples.tool "Who is Bhoomi?" "S1"
            (Samples.world MoreSamples.context_null) _ [("context", Py.None_)]
            Py.None_ eq_refl eq_refl eq_refl eq_refl _).
  left. reflexivity.
Defined.

(** X2. A context that is not text but true in Python's sense (a number
    other than zero, [true], a non-empty array or object) is not rejected:
    its [str()] is wrapped like a text context. *)
Theorem lookup_lore_nontext_context `{Py.Repr} (self : LoreTool.Self)
    (query spoiler_mode : string) (w : World) (r : aiohttp.ClientResponse)
    (d : list (string * Py.Value)) (v : Py.Value) :
  net w (outbox w) (LoreTool.request self query spoiler_mode) = aiohttp.Completed r ->
  aiohttp.status r = 200 ->
  aiohttp.json r = aiohttp.Completed (Py.Dict d) ->
  Py.dict_lookup d "context" = Some v ->
  (forall s, v <> Py.Str s) ->
  Py.truthy v = true ->
  fst (run (LoreTool.lookup_lore self query spoiler_mode) w)
  = Returned ("FOUND ARCHIVE RECORDS:" ++ LF ++ Py.repr_other v).
Proof.
  intros Hnet Hst Hjson Hctx Hns Ht.
  rewrite lookup_lore_result, Hnet. unfold LoreTool.result_of_answer.
  rewrite Hst, Hjson, Hctx, Ht. cbn [Z.eqb Pos.eqb].
  destruct v; try reflexivity. exfalso. exact (Hns s eq_refl).
Qed.

Lemma lookup_lore_nontext_context_witness :
  fst (run (LoreTool.lookup_lore (H := Samples.repr) Samples.tool "How many acts?" "S1")
           (Samples.world MoreSamples.context_three))
  = Returned ("FOUND ARCHIVE RECORDS:" ++ LF ++ "3").
Proof.
  refine (@lookup_lore_nontext_context Samples.repr Samples.tool "How many acts?" "S1"
            (Samples.world MoreSamples.context_three) _ [("context", Py.Int 3)]
            (Py.Int 3) eq_refl eq_refl eq_refl eq_refl _ eq_refl).
  discriminate.
Defined.

(** X3. Status 200 with JSON that is not an object (an array, a text, a
    number, [null]): [data.get] does not exist, nothing is looked up, and the
    caller gets the disturbance message; the log names the type. *)
Theorem lookup_lore_json_not_object `{Py.Repr} (self : LoreTool.Self)
    (query spoiler_mode : string) (w : World) (r : aiohttp.ClientResponse)
    (data : Py.Value) :
  net w (outbox w) (LoreTool.request self query spoiler_mode) = aiohttp.Completed r ->
  aiohttp.status r = 200 ->
  aiohttp.json r = aiohttp.Completed data ->
  (forall d, data <> Py.Dict d) ->
  run (LoreTool.lookup_lore self query spoiler_mode) w
  = (Returned "A disturbance in the Mesh prevents me from accessing the archives.",
     after w (LoreTool.request self query spoiler_mode)
       [LoreTool.info_record query spoiler_mode;
        logging.mkRecord logging.ERROR
          ("Failed to query RAG API: '" ++ Py.type_name data
             ++ "' object has no attribute 'get'")]).
Proof.
  intros Hnet Hst Hjson Hnd.
  rewrite lookup_lore_run. cbv zeta. rewrite Hnet.
  unfold LoreTool.result_of_answer, lookup_lore_records.
  rewrite Hst, Hjson. cbn [Z.eqb Pos.eqb].
  destruct data; try reflexivity. exfalso. exact (Hnd d eq_refl).
Qed.

Lemma lookup_lore_json_not_object_witness :
  run (LoreTool.lookup_lore (H := Samples.repr) Samples.tool "Who is Bhoomi?" "S1")
      (Samples.world MoreSamples.body_null)
  = (Returned "A disturbance in the Mesh prevents me from accessing the archives.",
     after (Samples.world MoreSamples.body_null)
       (LoreTool.request Samples.tool "Who is Bhoomi?" "S1")
       [LoreTool.info_record "Who is Bhoomi?" "S1";
        logging.mkRecord logging.ERROR
          "Failed to query RAG API: 'NoneType' object has no attribute 'get'"]).
Proof.
  refine (@lookup_lore_json_not_object Samples.repr Samples.tool "Who is Bhoomi?" "S1"
            (Samples.world MoreSamples.body_null) _ Py.None_
            eq_refl eq_refl eq_refl _).
  discriminate.
Defined.

(** X4. What a call logs and what it returns go together. After the opening
    info record there is either nothing more, and the text is the "silent"
    message or a wrapped context, or exactly one error record, and the text
    is one of the two failure messages. *)
Theorem lookup_lore_log_discipline `{Py.Repr} (self : LoreTool.Self)
    (query spoiler_mode : string) (w : World) :
  exists (text : string) (errors : list logging.LogRecord) (w' : World),
    run (LoreTool.lookup_lore self query spoiler_mode) w = (Returned text, w')
    /\ log w' = (log w ++ LoreTool.info_record query spoiler_mode :: errors)%list
    /\ ((errors = []
         /\ (text = "The archives are silent on this matter. I find no records matching your query."
             \/ exists c, text = "FOUND ARCHIVE RECORDS:" ++ LF ++ c)
         /\ text <> "I cannot access the archives at this moment. My connection is hazy."
         /\ text <> "A disturbance in the Mesh prevents me from accessing the archives.")
        \/ (exists msg, errors = [logging.mkRecord logging.ERROR msg]
            /\ (text = "I cannot access the archives at this moment. My connection is hazy."
                \/ text = "A disturbance in the Mesh prevents me from accessing the archives."))).
Proof.
  eexists _, _, _. split; [apply lookup_lore_run|]. split; [reflexivity|].
  cbv zeta. unfold LoreTool.result_of_answer, lookup_lore_records.
  assert (Hsilent :
    [] = @nil logging.LogRecord
    /\ (LoreTool.SILENT = LoreTool.SILENT
        \/ exists c, LoreTool.SILENT = "FOUND ARCHIVE RECORDS:" ++ LF ++ c)
    /\ LoreTool.SILENT <> LoreTool.CANNOT_ACCESS
    /\ LoreTool.SILENT <> LoreTool.DISTURBANCE).
  { repeat split; try discriminate. left; reflexivity. }
  destruct (net w (outbox w) (LoreTool.request self query spoiler_mode)) as [r|f msg].
  - destruct (aiohttp.status r =? 200)%Z.
    + destruct (aiohttp.json r) as [data|f msg].
      * destruct data; try (right; eexists; split; [reflexivity|right; reflexivity]).
        destruct (Py.dict_lookup d "context") as [c|]; [|left; exact Hsilent].
        destruct (Py.truthy c); [|left; exact Hsilent].
        left. repeat split; try discriminate. right. eexists. reflexivity.
      * right. eexists. split; [reflexivity|right; reflexivity].
    + destruct (aiohttp.text r) as [body|f msg].
      * right. eexists. split; [reflexivity|left; reflexivity].
      * right. eexists. split; [reflexivity|right; reflexivity].
  - right. eexists. split; [reflexivity|right; reflexivity].
Qed.

(** X5. Two calls, one after the other: the second runs whatever the first
    one met, both requests go out in that order, and the backend answers the
    second knowing the first. *)
Theorem lookup_lore_twice `{Py.Repr} (self1 self2 : LoreTool.Self)
    (query1 mode1 query2 mode2 : string) (w : World) :
  let rq1 := LoreTool.request self1 query1 mode1 in
  let rq2 := LoreTool.request self2 query2 mode2 in
  let both :=
    run (first ← LoreTool.lookup_lore self1 query1 mode1;
         second ← LoreTool.lookup_lore self2 query2 mode2;
         mret (first, second)) w in
  fst both
  = Returned (LoreTool.result_of_answer (net w (outbox w) rq1),
              LoreTool.result_of_answer (net w (outbox w ++ [rq1])%list rq2))
  /\ outbox (snd both) = (outbox w ++ [rq1; rq2])%list.
Proof.
  intros rq1 rq2 both. subst both.
  rewrite run_bind, lookup_lore_run. cbv zeta.
  rewrite run_bind, lookup_lore_run. cbv zeta.
  rewrite run_ret. cbn [fst snd after outbox net].
  rewrite <- app_assoc. split; reflexivity.
Qed.

(** Against a backend that refuses the first request and serves the later
    ones, the first call reports the disturbance and the second finds the
    records. *)
Example run_twice_warming_up :
  fst (run (first ← LoreTool.lookup_lore (H := Samples.repr) Samples.tool
                      "Ashen King" "S1";
            second ← LoreTool.lookup_lore (H := Samples.repr) Samples.tool
                       "Ashen King" "S1";
            mret (first, second))
           (mkWorld [] [] 0 0 (MoreSamples.warming_up "Ashen King died in Act 2")))
  = Returned (LoreTool.DISTURBANCE,
              "FOUND ARCHIVE RECORDS:" ++ LF ++ "Ashen King died in Act 2").
Proof. reflexivity. Qed.

(** X6. The body of the [try] closes what it opens, also when it ends with
    an exception: the session and the response it used are gone. *)
Theorem lookup_lore_try_closes `{Py.Repr} (self : LoreTool.Self)
    (query spoiler_mode : string) (w : World) :
  let w' := snd (run (LoreTool.lookup_lore_try self query spoiler_mode) w) in
  live_sessions w' = live_sessions w /\ live_responses w' = live_responses w.
Proof.
  destruct (try_frame self query spoiler_mode w) as (res & recs & ->).
  split; reflexivity.
Qed.

(** X7. The secret goes into the Authorization header and nowhere else.
    Run two tools that differ only in their secret in the same world, the
    backend giving both the same answer: the text returned is the same, and
    so is the world left behind (log, counts, backend) except for the one
    request appended; and that request is the same POST, to the same URL with
    the same body and timeout, except for the header made from the secret. *)
Theorem lookup_lore_secret_only_in_header `{Py.Repr} (url : string)
    (secret1 secret2 : option string) (query spoiler_mode : string) (w : World) :
  net w (outbox w)
      (LoreTool.request (LoreTool.mkSelf url secret1) query spoiler_mode)
  = net w (outbox w)
        (LoreTool.request (LoreTool.mkSelf url secret2) query spoiler_mode) ->
  (exists (text : string) (records : list logging.LogRecord),
      run (LoreTool.lookup_lore (LoreTool.mkSelf url secret1) query spoiler_mode) w
      = (Returned text,
         after w (LoreTool.request (LoreTool.mkSelf url secret1) query spoiler_mode)
               records)
      /\ run (LoreTool.lookup_lore (LoreTool.mkSelf url secret2) query spoiler_mode) w
         = (Returned text,
            after w (LoreTool.request (LoreTool.mkSelf url secret2) query spoiler_mode)
                  records))
  /\ (forall secret : option string,
        LoreTool.request (LoreTool.mkSelf url secret) query spoiler_mode
        = {| aiohttp.method := aiohttp.POST;
             aiohttp.url := url;
             aiohttp.json_body :=
               Py.Dict [("query", Py.Str query); ("spoilerMode", Py.Str spoiler_mode)];
             aiohttp.headers :=
               [("Authorization",
                 ("Bearer " ++ match secret with
                               | Some text => text
                               | None => "None"
                               end)%string)];
             aiohttp.timeout := 5 |}).
Proof.
  intros Hnet. split.
  - eexists _, _. split; [apply lookup_lore_run|].
    rewrite lookup_lore_run. cbv zeta. rewrite Hnet. reflexivity.
  - intros secret. reflexivity.
Qed.

Lemma lookup_lore_secret_only_in_header_witness :
  exists (text : string) (records : list logging.LogRecord),
    run (LoreTool.lookup_lore (H := Samples.repr)
           (LoreTool.mkSelf "http://rag.internal/api" (Some "s3cr3t-token"))
           "Who is Bhoomi?" "S1")
        (Samples.world Samples.server_error)
    = (Returned text,
       after (Samples.world Samples.server_error)
         (LoreTool.request
            (LoreTool.mkSelf "http://rag.internal/api" (Some "s3cr3t-token"))
            "Who is Bhoomi?" "S1")
         records)
    /\ run (LoreTool.lookup_lore (H := Samples.repr)
              (LoreTool.mkSelf "http://rag.internal/api" None)
              "Who is Bhoomi?" "S1")
           (Samples.world Samples.server_error)
       = (Returned text,
          after (Samples.world Samples.server_error)
            (LoreTool.request (LoreTool.mkSelf "http://rag.internal/api" None)
               "Who is Bhoomi?" "S1")
            records).
Proof.
  exact (proj1 (@lookup_lore_secret_only_in_header Samples.repr
                  "http://rag.internal/api" (Some "s3cr3t-token") None
                  "Who is Bhoomi?" "S1" (Samples.world Samples.server_error)
                  eq_refl)).
Defined.

(** * Further properties of the liveness responder *)



(** X9. No request is logged, whatever its method and whatever was on the
    error stream before: the request line of a served GET and the error line
    of a refused method both end in the overridden [log_message]. *)
Theorem health_never_logs (srv : http_server.Server) (rq : http_server.Request)
    (c : http_server.Connection) :
  http_server.stderr
    (http_server.handle_one_request HealthHandler.class srv rq c)
  = http_server.stderr c.
Proof.
  assert (Herror : forall (r : http_server.Request) (code : Z) (msg : string),
    http_server.stderr
      (http_server.send_error HealthHandler.log_message srv r code msg c)
    = http_server.stderr c).
  { intros r code msg. unfold http_server.send_error.
    destruct (http_server.carries_body code),
      (negb (String.eqb (http_server.command r) "HEAD"));
      cbn [andb]; read_back; reflexivity. }
  unfold http_server.handle_one_request.
  cbn [http_server.getattr HealthHandler.class http_server.log_message].
  destruct (65536 <? Z.of_nat (String.length (http_server.raw_requestline rq)))%Z;
    [apply Herror|].
  destruct (String.eqb (http_server.raw_requestline rq) ""); [reflexivity|].
  destruct (String.eqb ("do_" ++ http_server.command rq) "do_GET");
    [|apply Herror].
  read_back. reflexivity.
Qed.

(** * The session bootstrap *)

Section Runtime.

Import runtime.

Lemma call_then {A : Type} (c : Call) (k : H A) (h : Host) :
  (call c;; k) h =
  match sdk h (calls h) c with
  | Some e => (Raised e, made c h)
  | None => k (made c h)
  end.
Proof.
  unfold mbind, H_bind, call. destruct (sdk h (calls h) c); reflexivity.
Qed.

Lemma ask_then {A B : Type} (f : Host -> A) (k : A -> H B) (h : Host) :
  (ask f ≫= k) h = k (f h) h.
Proof. reflexivity. Qed.

Lemma Host_eta (h : Host) :
  h = mkHost (environ h) (journal h) (calls h) (sdk h) (jwt h) (room_name h)
             (room_sid h).
Proof. destruct h; reflexivity. Qed.

Lemma info_then {A : Type} (msg : string) (k : H A) (h : Host) :
  (logger_info msg;; k) h = k (noted (logging.mkRecord logging.INFO msg) h).
Proof. reflexivity. Qed.

End Runtime.

Section Entrypoint.

Import runtime.

Variable h : Host.

Let tool := LoreTool.__init__ (environ h).

Ltac step H :=
  first [rewrite call_then in H | rewrite ask_then in H | rewrite info_then in H];
  cbn [made noted sdk calls journal environ jwt room_name room_sid] in H.

Ltac blame i Hsdk :=
  exists (take i (main.program tool)), (drop (S i) (main.program tool));
  eexists; split; [reflexivity|];
  cbn [made noted sdk calls journal environ jwt room_name room_sid
       take drop main.program app];
  rewrite <- ?app_assoc in Hsdk; rewrite <- ?app_assoc, ?app_nil_r;
  split; [reflexivity|]; split; [exact Hsdk|].

(** X10. [entrypoint] recovers from nothing. When it raises, the exception
    is the one the SDK raised in the last call made, no call of the
    bootstrap after that one was made, and the "connected" record was not
    written: the journal has at most gained the "starting" record. *)
Theorem entrypoint_failure (e : Py.Exc) (h' : Host) :
  main.entrypoint h = (Raised e, h') ->
  exists (done rest : list Call) (c : Call),
    main.program (LoreTool.__init__ (environ h)) = (done ++ c :: rest)%list
    /\ calls h' = (calls h ++ done ++ [c])%list
    /\ sdk h (calls h ++ done)%list c = Some e
    /\ (journal h' = journal h
        \/ journal h'
           = (journal h
                ++ [logging.mkRecord logging.INFO "Starting Agent Session..."])%list).
Proof.
  intros Hrun. unfold main.entrypoint in Hrun. fold tool.
  step Hrun. destruct (sdk h _ _) eqn:H0 in Hrun.
  { injection Hrun as <- <-. blame 0%nat H0. left; reflexivity. }
  step Hrun. fold tool in Hrun.
  step Hrun. destruct (sdk h _ _) eqn:H1 in Hrun.
  { injection Hrun as <- <-. blame 1%nat H1. left; reflexivity. }
  step Hrun. destruct (sdk h _ _) eqn:H2 in Hrun.
  { injection Hrun as <- <-. blame 2%nat H2. left; reflexivity. }
  step Hrun. destruct (sdk h _ _) eqn:H3 in Hrun.
  { injection Hrun as <- <-. blame 3%nat H3. left; reflexivity. }
  step Hrun. destruct (sdk h _ _) eqn:H4 in Hrun.
  { injection Hrun as <- <-. blame 4%nat H4. left; reflexivity. }
  step Hrun.
  step Hrun. destruct (sdk h _ _) eqn:H5 in Hrun.
  { injection Hrun as <- <-. blame 5%nat H5. right; reflexivity. }
  step Hrun. destruct (sdk h _ _) eqn:H6 in Hrun.
  { injection Hrun as <- <-. blame 6%nat H6. right; reflexivity. }
  discriminate Hrun.
Qed.

End Entrypoint.

Lemma entrypoint_failure_witness :
  exists (done rest : list runtime.Call) (c : runtime.Call),
    main.program (LoreTool.__init__ ∅) = (done ++ c :: rest)%list
    /\ runtime.calls (snd (main.entrypoint MoreSamples.no_detector))
       = ([] ++ done ++ [c])%list
    /\ runtime.sdk MoreSamples.no_detector ([] ++ done)%list c
       = Some (Py.mkExc Py.ClientConnectorError "Cannot download the model")
    /\ (runtime.journal (snd (main.entrypoint MoreSamples.no_detector)) = []
        \/ runtime.journal (snd (main.entrypoint MoreSamples.no_detector))
           = ([] ++ [logging.mkRecord logging.INFO "Starting Agent Session..."])%list).
Proof.
  apply (entrypoint_failure MoreSamples.no_detector
           (Py.mkExc Py.ClientConnectorError "Cannot download the model")
           (snd (main.entrypoint MoreSamples.no_detector))).
  vm_compute. reflexivity.
Defined.

Section EntrypointSuccess.

Import runtime.

Variable h : Host.

Let tool := LoreTool.__init__ (environ h).

(** X11. When none of its calls raises, [entrypoint] returns, having made
    exactly the seven calls of the bootstrap in their order (connect with
    audio only, load the detector, build the model, the agent with the lore
    tool as its one tool, the session, start it, sleep one second) and
    written the "starting" and then the "connected" record. *)
Theorem entrypoint_success :
  (forall (done rest : list Call) (c : Call),
      main.program (LoreTool.__init__ (environ h)) = (done ++ c :: rest)%list ->
      sdk h (calls h ++ done)%list c = None) ->
  main.entrypoint h
  = (Returned tt,
     mkHost (environ h)
       (journal h ++ [logging.mkRecord logging.INFO "Starting Agent Session...";
                      logging.mkRecord logging.INFO "Agent connected and listening."])
       (calls h ++ main.program (LoreTool.__init__ (environ h)))
       (sdk h) (jwt h) (room_name h) (room_sid h)).
Proof.
  intros Hok.
  pose proof (Hok (take 0 (main.program tool)) (drop 1 (main.program tool)) _ eq_refl) as H0.
  pose proof (Hok (take 1 (main.program tool)) (drop 2 (main.program tool)) _ eq_refl) as H1.
  pose proof (Hok (take 2 (main.program tool)) (drop 3 (main.program tool)) _ eq_refl) as H2.
  pose proof (Hok (take 3 (main.program tool)) (drop 4 (main.program tool)) _ eq_refl) as H3.
  pose proof (Hok (take 4 (main.program tool)) (drop 5 (main.program tool)) _ eq_refl) as H4.
  pose proof (Hok (take 5 (main.program tool)) (drop 6 (main.program tool)) _ eq_refl) as H5.
  pose proof (Hok (take 6 (main.program tool)) (drop 7 (main.program tool)) _ eq_refl) as H6.
  cbn [take drop main.program] in H0, H1, H2, H3, H4, H5, H6.
  unfold tool in H0, H1, H2, H3, H4, H5, H6.
  rewrite app_nil_r in H0.
  unfold main.entrypoint.
  rewrite call_then, H0; cbn [made noted sdk calls journal environ].
  rewrite ask_then.
  rewrite call_then; cbn [made noted sdk calls journal environ].
  rewrite H1.
  rewrite call_then; cbn [made noted sdk calls journal environ].
  rewrite <- !app_assoc; cbn [app]. rewrite H2.
  rewrite call_then; cbn [made noted sdk calls journal environ].
  rewrite <- !app_assoc; cbn [app]. rewrite H3.
  rewrite call_then; cbn [made noted sdk calls journal environ].
  rewrite <- !app_assoc; cbn [app]. rewrite H4.
  rewrite info_then; cbn [made noted sdk calls journal environ].
  rewrite call_then; cbn [made noted sdk calls journal environ].
  rewrite <- !app_assoc; cbn [app]. rewrite H5.
  rewrite call_then; cbn [made noted sdk calls journal environ].
  rewrite <- !app_assoc; cbn [app]. rewrite H6.
  unfold logger_info. f_equal. etransitivity; [apply Host_eta|].
  cbn [made noted sdk calls journal environ jwt room_name room_sid].
  rewrite <- !app_assoc. reflexivity.
Qed.

End EntrypointSuccess.

Lemma entrypoint_success_witness :
  main.entrypoint MoreSamples.willing_host
  = (Returned tt,
     runtime.mkHost ∅
       [logging.mkRecord logging.INFO "Starting Agent Session...";
        logging.mkRecord logging.INFO "Agent connected and listening."]
       (main.program (LoreTool.__init__ ∅))
       (fun _ _ => None) "eyJhbGciOiJIUzI1NiJ9.e30.sig" "test-room-debug" "RM_x7Qp").
Proof.
  apply (entrypoint_success MoreSamples.willing_host).
  intros done rest c _. reflexivity.
Defined.

(** * The connection probe, [test_connection.py] *)

Section ConnectionProbe.

Import runtime.

Lemma blank_not_truthy (env : os.Environ) (key : string) :
  test_connection.blank env key -> test_connection.truthy (os.getenv env key) = false.
Proof. unfold os.getenv. intros [-> | ->]; reflexivity. Qed.

Lemma try_then (body : H unit) (handler : Py.Exc -> H unit) (h : Host) :
  try_except_Exception body handler h =
  match body h with
  | (Returned a, h') => (Returned a, h')
  | (Raised e, h') =>
      if Py.is_Exception (Py.exc_class e) then handler e h' else (Raised e, h')
  end.
Proof. reflexivity. Qed.

Ltac forward :=
  repeat first [rewrite ask_then | rewrite info_then];
  cbn [made noted sdk calls journal environ jwt room_name room_sid].

End ConnectionProbe.

(** X12. With the configuration incomplete (no URL under either name, or no
    key, or no secret; a variable set to the empty text counts as missing),
    the probe only logs an error: no token is made and nothing is called. *)
Theorem probe_incomplete_configuration (h : runtime.Host) :
  (test_connection.blank (runtime.environ h) "LIVEKIT_URL"
   /\ test_connection.blank (runtime.environ h) "NEXT_PUBLIC_LIVEKIT_URL")
  \/ test_connection.blank (runtime.environ h) "LIVEKIT_API_KEY"
  \/ test_connection.blank (runtime.environ h) "LIVEKIT_API_SECRET" ->
  test_connection.main h
  = (Returned tt,
     runtime.noted
       (logging.mkRecord logging.ERROR
          "Missing Environment Variables. Make sure .env.local is loaded.") h).
Proof.
  intros Hmissing. unfold test_connection.main.
  rewrite !ask_then.
  assert (Hcond :
    negb (test_connection.truthy (test_connection.LIVEKIT_URL (runtime.environ h)))
    || negb (test_connection.truthy (test_connection.API_KEY (runtime.environ h)))
    || negb (test_connection.truthy (test_connection.API_SECRET (runtime.environ h)))
    = true).
  { destruct Hmissing as [[Hu Hf] | [Hk | Hs]].
    - unfold test_connection.LIVEKIT_URL, test_connection.or_.
      rewrite (blank_not_truthy _ _ Hu), (blank_not_truthy _ _ Hf). reflexivity.
    - unfold test_connection.API_KEY. rewrite (blank_not_truthy _ _ Hk).
      cbn [negb]. rewrite orb_true_r. reflexivity.
    - unfold test_connection.API_SECRET. rewrite (blank_not_truthy _ _ Hs).
      cbn [negb]. rewrite orb_true_r. reflexivity. }
  rewrite Hcond. reflexivity.
Qed.

Lemma probe_incomplete_configuration_witness :
  test_connection.main MoreSamples.keyless
  = (Returned tt,
     runtime.noted
       (logging.mkRecord logging.ERROR
          "Missing Environment Variables. Make sure .env.local is loaded.")
       MoreSamples.keyless).
Proof.
  apply (probe_incomplete_configuration MoreSamples.keyless).
  right; left. left. reflexivity.
Defined.

Ltac host_step :=
  first [rewrite call_then | rewrite ask_then | rewrite info_then];
  cbn [runtime.made runtime.noted runtime.sdk runtime.calls runtime.journal
       runtime.environ runtime.jwt runtime.room_name runtime.room_sid].





(** * The API probe, [test_rag_api.py] *)

Lemma take_trail_split (ranges : list (N * N)) (s t r : string) :
  test_rag_api.take_trail ranges s = Some (t, r) ->
  s = String.append t r /\ (String.length r <= String.length s)%nat.
Proof.
  revert s t r. induction ranges as [|[lo hi] more IH]; intros s t r; cbn.
  - intros [= <- <-]. split; [reflexivity | lia].
  - destruct s as [|a rest]; [discriminate|].
    destruct (test_rag_api.byte_in lo hi a); [|discriminate].
    destruct (test_rag_api.take_trail more rest) as [[t' r']|] eqn:Hmore;
      [|discriminate].
    intros [= <- <-]. destruct (IH _ _ _ Hmore) as [-> Hlen].
    split; [reflexivity | cbn; lia].
Qed.

Lemma first_char_split (a : Ascii.ascii) (rest c r : string) :
  test_rag_api.first_char a rest = (c, r) ->
  String a rest = String.append c r /\ (String.length r <= String.length rest)%nat.
Proof.
  unfold test_rag_api.first_char.
  destruct (test_rag_api.take_trail (test_rag_api.trail_ranges a) rest)
    as [[t r']|] eqn:Htrail.
  - intros [= <- <-]. destruct (take_trail_split _ _ _ _ Htrail) as [-> Hlen].
    split; [reflexivity | exact Hlen].
  - intros [= <- <-]. split; [reflexivity | lia].
Qed.

(** More fuel than the text is long changes nothing. *)
Lemma characters_upto_enough (fuel1 fuel2 : nat) (s : string) :
  (String.length s <= fuel1)%nat -> (String.length s <= fuel2)%nat ->
  test_rag_api.characters_upto fuel1 s = test_rag_api.characters_upto fuel2 s.
Proof.
  revert fuel2 s. induction fuel1 as [|fuel1 IH]; intros fuel2 s H1 H2.
  - destruct s; [|cbn in H1; lia]. destruct fuel2; reflexivity.
  - destruct s as [|a rest]; [destruct fuel2; reflexivity|].
    destruct fuel2 as [|fuel2]; [cbn in H2; lia|]. cbn in H1, H2 |- *.
    destruct (test_rag_api.first_char a rest) as [c r] eqn:Hfirst.
    destruct (first_char_split _ _ _ _ Hfirst) as [_ Hlen].
    f_equal. apply IH; lia.
Qed.

Lemma characters_cons (a : Ascii.ascii) (rest : string) :
  test_rag_api.characters (String a rest)
  = fst (test_rag_api.first_char a rest)
    :: test_rag_api.characters (snd (test_rag_api.first_char a rest)).
Proof.
  unfold test_rag_api.characters. cbn [String.length test_rag_api.characters_upto].
  destruct (test_rag_api.first_char a rest) as [c r] eqn:Hfirst. cbn [fst snd].
  destruct (first_char_split _ _ _ _ Hfirst) as [_ Hlen].
  f_equal. apply characters_upto_enough; lia.
Qed.

(** Cutting a text into characters loses nothing. *)
Lemma join_characters (s : string) :
  test_rag_api.join (test_rag_api.characters s) = s.
Proof.
  remember (String.length s) as n eqn:Hn.
  assert (Hle : (String.length s <= n)%nat) by lia. clear Hn.
  revert s Hle. induction n as [|n IH]; intros s Hle.
  - destruct s; [reflexivity | cbn in Hle; lia].
  - destruct s as [|a rest]; [reflexivity|]. rewrite characters_cons.
    destruct (test_rag_api.first_char a rest) as [c r] eqn:Hfirst. cbn [fst snd].
    destruct (first_char_split _ _ _ _ Hfirst) as [Heq Hlen].
    cbn [test_rag_api.join fold_right]. fold (test_rag_api.join (test_rag_api.characters r)).
    rewrite IH by (cbn in Hle; lia). symmetry. exact Heq.
Qed.

(** A text cut at a character boundary has the characters after the cut. *)
Lemma characters_join_drop (s : string) (k : nat) :
  test_rag_api.characters
    (test_rag_api.join (drop k (test_rag_api.characters s)))
  = drop k (test_rag_api.characters s).
Proof.
  remember (String.length s) as n eqn:Hn.
  assert (Hle : (String.length s <= n)%nat) by lia. clear Hn.
  revert s k Hle. induction n as [|n IH]; intros s k Hle.
  - destruct s; [|cbn in Hle; lia]. destruct k; reflexivity.
  - destruct k as [|k]; [rewrite !drop_0, join_characters; reflexivity|].
    destruct s as [|a rest]; [reflexivity|]. rewrite characters_cons.
    destruct (test_rag_api.first_char a rest) as [c r] eqn:Hfirst. cbn [fst snd drop].
    destruct (first_char_split _ _ _ _ Hfirst) as [_ Hlen].
    apply IH. cbn in Hle. lia.
Qed.

Lemma string_append_assoc (a b c : string) :
  String.append a (String.append b c) = String.append (String.append a b) c.
Proof.
  induction a as [|x a IH]; [reflexivity|].
  change (String x (String.append a (String.append b c))
          = String x (String.append (String.append a b) c)).
  f_equal. exact IH.
Qed.

Lemma join_app (cs ds : list string) :
  test_rag_api.join (cs ++ ds)
  = String.append (test_rag_api.join cs) (test_rag_api.join ds).
Proof.
  induction cs as [|c cs IH]; [reflexivity|].
  cbn [app test_rag_api.join fold_right].
  fold (test_rag_api.join (cs ++ ds)). fold (test_rag_api.join cs).
  rewrite IH. apply string_append_assoc.
Qed.

(** The banner's own text: six characters of two bytes each. *)
Example last_six_cyrillic :
  test_rag_api.last_six "ключ-секрет" = "секрет"
  /\ length (test_rag_api.characters "ключ-секрет") = 11%nat
  /\ String.length (test_rag_api.last_six "ключ-секрет") = 12%nat.
Proof. repeat split. Qed.

(** X15. The banner shows at most the last six characters of the secret:
    the hint printed is "NONE" when the secret is unset or empty, and
    otherwise the end of the secret, six characters long, or the whole
    secret when it has fewer characters than that. *)
Theorem secret_hint_reveals_six (secret : option string) :
  ((secret = None \/ secret = Some "") /\ test_rag_api.secret_hint secret = "NONE")
  \/ exists s hidden : string,
       secret = Some s /\ s <> ""
       /\ s = hidden ++ test_rag_api.secret_hint secret
       /\ length (test_rag_api.characters (test_rag_api.secret_hint secret))
          = Nat.min 6 (length (test_rag_api.characters s)).
Proof.
  destruct secret as [s|]; [|left; split; [left|]; reflexivity].
  destruct (String.eqb_spec s "") as [->|Hne].
  - left. split; [right|]; reflexivity.
  - right. cbn [test_rag_api.secret_hint].
    destruct (String.eqb_spec s "") as [|_]; [contradiction|]. cbn [negb].
    unfold test_rag_api.last_six.
    set (cs := test_rag_api.characters s).
    set (k := (length cs - 6)%nat).
    exists s, (test_rag_api.join (take k cs)).
    split; [reflexivity|]. split; [exact Hne|]. split.
    + change (s = String.append (test_rag_api.join (take k cs))
                                (test_rag_api.join (drop k cs))).
      rewrite <- join_app, take_drop. symmetry. apply join_characters.
    + unfold cs at 1. rewrite characters_join_drop. fold cs.
      rewrite length_drop. unfold k. lia.
Qed.

Section ApiProbe.

Context `{Py.Repr}.
Variables (environ : os.Environ)
          (post : test_rag_api.Request -> test_rag_api.Attempt test_rag_api.Response)
          (out : list string).

Let secret := os.getenv environ "INTERNAL_API_SECRET".


End ApiProbe.

(** X17. The probe exercises the tool's contract: with [INTERNAL_API_URL]
    unset, its request has the URL, the JSON body and the Authorization
    header of the tool's own request for the same question at the default
    spoiler tier, also when the secret is unset ("Bearer None" in both). *)
Theorem probe_request_matches_tool (environ : os.Environ) :
  environ !! "INTERNAL_API_URL" = None ->
  let probe := test_rag_api.request (os.getenv environ "INTERNAL_API_SECRET") in
  let tool := LoreTool.request (LoreTool.__init__ environ)
                "Who is the protagonist?" "S1" in
  test_rag_api.url probe = aiohttp.url tool
  /\ test_rag_api.json_body probe = aiohttp.json_body tool
  /\ test_rag_api.headers probe = aiohttp.headers tool.
Proof.
  intros Hurl probe tool. subst probe tool.
  unfold test_rag_api.request, LoreTool.request, LoreTool.__init__,
    os.getenv_default, os.getenv.
  cbn [test_rag_api.url test_rag_api.json_body test_rag_api.headers
       aiohttp.url aiohttp.json_body aiohttp.headers
       LoreTool.api_url LoreTool.api_secret].
  rewrite Hurl. repeat split.
Qed.

Lemma probe_request_matches_tool_witness :
  let environ : os.Environ := {[ "INTERNAL_API_SECRET" := "s3cr3t-token" ]} in
  let probe := test_rag_api.request (os.getenv environ "INTERNAL_API_SECRET") in
  let tool := LoreTool.request (LoreTool.__init__ environ)
                "Who is the protagonist?" "S1" in
  test_rag_api.url probe = aiohttp.url tool
  /\ test_rag_api.json_body probe = aiohttp.json_body tool
  /\ test_rag_api.headers probe = aiohttp.headers tool.
Proof.
  apply (probe_request_matches_tool {[ "INTERNAL_API_SECRET" := "s3cr3t-token" ]}).
  reflexivity.
Defined.
